(** * Handover tracking, RSSI model, flow statistics and CSV logs of the
      ns-3 roaming scenarios

    Embedding of the analytic part of
    [scratch_tests_additionnel/wifi-roaming-v4.cc] and of its near copy
    [scratch_tests_additionnel/roaming-saturation.cc]:
    - [AssociationCallback] / [DisassociationCallback] over the globals
      [currentAp] (a [std::map<uint32_t, Mac48Address>]), [handoverCount]
      (a [uint32_t]) and the stream [handoverFile];
    - [CalculateDistance] / [CalculateRssi] (log-distance path loss);
    - the FlowMonitor loop of [main] computing duration, throughput and
      mean delay;
    - the node id read from the callback context ([find], [substr],
      [std::stoi]);
    - [RssiMonitorCallback] and the lines of [rssi_measurements.csv];
    - the text written to [handover_events.csv] and the lines of
      [flow_stats.csv]. *)

From stdpp Require Import base gmap.
From Stdlib Require Import Reals Lra String Ascii Decimal DecimalString DecimalN DecimalFacts.

(* ===================================================================== *)
(** ** Data model *)

(** [Mac48Address]: the six bytes [m_address[0..5]]. *)
Record Mac48Address := Mac48 {
  m_a0 : Byte.byte; m_a1 : Byte.byte; m_a2 : Byte.byte;
  m_a3 : Byte.byte; m_a4 : Byte.byte; m_a5 : Byte.byte
}.

(** [operator==] / [operator!=] of [Mac48Address] compare the bytes. *)
Definition mac_eq_dec (a b : Mac48Address) : {a = b} + {a <> b}.
Proof. decide equality; apply Byte.byte_eq_dec. Defined.

#[global] Instance Mac48Address_eq_dec : EqDecision Mac48Address := mac_eq_dec.

(** Two sample addresses, [00:00:00:00:aa:aa] and [00:00:00:00:bb:bb]. *)
Definition apAA : Mac48Address := Mac48 Byte.x00 Byte.x00 Byte.x00 Byte.x00 Byte.xaa Byte.xaa.
Definition apBB : Mac48Address := Mac48 Byte.x00 Byte.x00 Byte.x00 Byte.x00 Byte.xbb Byte.xbb.

(** ns-3 [Time]: a signed 64-bit count of nanoseconds. *)
Definition Time := Z.

(** The node id recovered from the callback context
    ([/NodeList/<id>/Device...], parsed with [std::stoi]) is a [uint32_t];
    the callbacks are modelled from the point where [nodeId] is known. *)
Definition NodeId := N.

(** [uint32_t] arithmetic wraps modulo 2^32. *)
Definition wrap32 (z : Z) : Z := (z mod 2 ^ 32)%Z.

(** One line of [handover_events.csv], as the callbacks write it. *)
Inductive Row :=
| RowAssoc (t : Time) (nodeId : NodeId) (apAddr : Mac48Address)
| RowDeassoc (t : Time) (nodeId : NodeId) (apAddr : Mac48Address)
| RowHandover (t : Time) (nodeId : NodeId) (fromAp toAp : Mac48Address).

(** The globals of the scenario file. [handoverFile] is the sequence of
    rows appended after the header line. *)
Record State := mkState {
  currentAp : gmap N Mac48Address;
  handoverCount : Z;
  handoverFile : list Row
}.

Definition initState : State := mkState ∅ 0%Z [].

(* ===================================================================== *)
(** ** Callbacks *)

(** [AssociationCallback]: if the station already has an entry in
    [currentAp] and it differs from [apAddr], increment [handoverCount]
    and log a HANDOVER line; then set [currentAp[nodeId] = apAddr] and log
    an ASSOC line. (The saturation file adds console-only branches for
    reassociation and first association.) *)
Definition AssociationCallback (st : State) (t : Time) (nodeId : NodeId)
    (apAddr : Mac48Address) : State :=
  let st1 :=
    match currentAp st !! nodeId with
    | Some prev =>
        if mac_eq_dec prev apAddr then st
        else mkState (currentAp st) (wrap32 (handoverCount st + 1)%Z)
               (handoverFile st ++ [RowHandover t nodeId prev apAddr])
    | None => st
    end in
  mkState (<[nodeId := apAddr]> (currentAp st1)) (handoverCount st1)
    (handoverFile st1 ++ [RowAssoc t nodeId apAddr]).

(** [DisassociationCallback]: only a DEASSOC line is logged. *)
Definition DisassociationCallback (st : State) (t : Time) (nodeId : NodeId)
    (apAddr : Mac48Address) : State :=
  mkState (currentAp st) (handoverCount st)
    (handoverFile st ++ [RowDeassoc t nodeId apAddr]).

(** The traced signals [.../StaWifiMac/Assoc] and [.../StaWifiMac/DeAssoc]. *)
Inductive Event :=
| Assoc (t : Time) (nodeId : NodeId) (apAddr : Mac48Address)
| DeAssoc (t : Time) (nodeId : NodeId) (apAddr : Mac48Address).

Definition step (st : State) (e : Event) : State :=
  match e with
  | Assoc t n a => AssociationCallback st t n a
  | DeAssoc t n a => DisassociationCallback st t n a
  end.

Definition run (st : State) (evs : list Event) : State := fold_left step evs st.

Definition is_assoc_of (s : NodeId) (e : Event) : bool :=
  match e with
  | Assoc _ n _ => bool_decide (n = s)
  | DeAssoc _ _ _ => false
  end.

(** Whether an association of [nodeId] to [apAddr] is a handover, the
    condition of the [if] in [AssociationCallback]. *)
Definition is_handover (st : State) (nodeId : NodeId) (apAddr : Mac48Address) : bool :=
  match currentAp st !! nodeId with
  | Some prev => negb (bool_decide (prev = apAddr))
  | None => false
  end.

(* ===================================================================== *)
(** ** Propagation model ([CalculateDistance], [CalculateRssi]) *)

(** [double] arithmetic is modelled by real arithmetic. *)
Module Propagation.
Local Open Scope R_scope.

Record Vector := Vec { vx : R; vy : R; vz : R }.

(** [CalculateDistance(a, b)] of wifi-roaming-v4.cc. *)
Definition CalculateDistance (a b : Vector) : R :=
  let dx := vx b - vx a in
  let dy := vy b - vy a in
  let dz := vz b - vz a in
  sqrt (dx * dx + dy * dy + dz * dz).

(** The inline distance of roaming-saturation.cc, with [std::pow(_, 2)]. *)
Definition CalculateDistancePow (a b : Vector) : R :=
  sqrt ((vx a - vx b) ^ 2 + (vy a - vy b) ^ 2 + (vz a - vz b) ^ 2).

(** [std::log10]. *)
Definition log10 (x : R) : R := ln x / ln 10.

(** The local constants of [CalculateRssi]. *)
Definition txPowerDbm : R := 16.
Definition exponent : R := 3.
Definition referenceDistance : R := 1.
Definition referenceLoss : R := 466777 / 10000.

Definition CalculateRssi (txPosition rxPosition : Vector) : R :=
  let distance := CalculateDistance txPosition rxPosition in
  let pathLossDb :=
    if Rle_dec distance referenceDistance then referenceLoss
    else referenceLoss + 10 * exponent * log10 (distance / referenceDistance) in
  let rssi := txPowerDbm - pathLossDb in
  rssi.

(** [CalculateRssi] of roaming-saturation.cc: the same local constants
    (16, 3, 1, 46.6777) and branches, with the [std::pow] distance. *)
Definition CalculateRssiSat (txPosition rxPosition : Vector) : R :=
  let distance := CalculateDistancePow txPosition rxPosition in
  let pathLossDb :=
    if Rle_dec distance referenceDistance then referenceLoss
    else referenceLoss + 10 * exponent * log10 (distance / referenceDistance) in
  let rssi := txPowerDbm - pathLossDb in
  rssi.

End Propagation.

(* ===================================================================== *)
(** ** FlowMonitor post-processing loop of [main] *)

Module FlowAgg.
Local Open Scope R_scope.

(** The fields of [FlowMonitor::FlowStats] read by the loop; [Time]
    fields in nanoseconds, counters as unsigned integers. *)
Record FlowStats := mkFlowStats {
  delaySum : Time; jitterSum : Time; lastDelay : Time;
  txBytes : N; rxBytes : N;
  txPackets : N; rxPackets : N; lostPackets : N;
  timeFirstTxPacket : Time; timeLastRxPacket : Time
}.

(** [Time::GetSeconds()]. *)
Definition GetSeconds (t : Time) : R := IZR t / 10 ^ 9.

(** [double duration = (timeLastRxPacket - timeFirstTxPacket).GetSeconds();] *)
Definition flow_duration (fs : FlowStats) : R :=
  GetSeconds (timeLastRxPacket fs - timeFirstTxPacket fs)%Z.

(** [throughput = 0; if (duration > 0) throughput = rxBytes * 8.0 / duration / 1000;] *)
Definition flow_throughput (fs : FlowStats) : R :=
  let duration := flow_duration fs in
  if Rlt_dec 0 duration then IZR (Z.of_N (rxBytes fs)) * 8 / duration / 1000
  else 0.

(** [(rxPackets > 0 ? delaySum.GetSeconds() / rxPackets : 0)] *)
Definition flow_mean_delay (fs : FlowStats) : R :=
  if N.ltb 0 (rxPackets fs) then GetSeconds (delaySum fs) / IZR (Z.of_N (rxPackets fs))
  else 0.

(** The derived values of one iteration of the loop over [stats]. *)
Record FlowReport := mkFlowReport {
  report_flowId : N;
  report_stats : FlowStats;
  durationSeconds : R;
  throughputKbps : R;
  meanDelaySeconds : R
}.

Definition flow_report (fid : N) (fs : FlowStats) : FlowReport :=
  mkFlowReport fid fs (flow_duration fs) (flow_throughput fs) (flow_mean_delay fs).

(** The loop over [std::map<FlowId, FlowStats>], in key order. *)
Definition flow_reports (stats : list (N * FlowStats)) : list FlowReport :=
  map (fun p => flow_report p.1 p.2) stats.

End FlowAgg.

(* ===================================================================== *)
(** ** Text of [handover_events.csv] *)

Module Csv.
Local Open Scope Z_scope.
Local Open Scope string_scope.

(** [operator<<] of an unsigned integer: decimal, no leading zeros. *)
Definition show_u32 (n : N) : string := NilEmpty.string_of_uint (N.to_uint n).

(** Lower-case hexadecimal digit, as [std::hex] prints it. *)
Definition hex_digit (n : N) : ascii :=
  match n with
  | 0%N => "0" | 1%N => "1" | 2%N => "2" | 3%N => "3" | 4%N => "4"
  | 5%N => "5" | 6%N => "6" | 7%N => "7" | 8%N => "8" | 9%N => "9"
  | 10%N => "a" | 11%N => "b" | 12%N => "c" | 13%N => "d" | 14%N => "e"
  | _ => "f"
  end%char.

(** [std::setw(2)] with fill ['0'] of one byte in hexadecimal. *)
Definition show_byte (b : Byte.byte) : string :=
  let n := Byte.to_N b in
  String (hex_digit (n / 16)) (String (hex_digit (n mod 16)) "").

(** [operator<<(std::ostream&, const Mac48Address&)] of ns-3: the six
    bytes in two-digit hexadecimal, separated by [':']. *)
Definition show_mac (m : Mac48Address) : string :=
  show_byte (m_a0 m) ++ ":" ++ show_byte (m_a1 m) ++ ":" ++ show_byte (m_a2 m)
  ++ ":" ++ show_byte (m_a3 m) ++ ":" ++ show_byte (m_a4 m) ++ ":" ++ show_byte (m_a5 m).

(** Digits of a natural number, as a string ("0" for 0). *)
Definition digits (n : Z) : string := show_u32 (Z.to_N n).

Definition ndigits (n : Z) : Z := Z.of_nat (String.length (digits n)).

Fixpoint zeros (k : nat) : string :=
  match k with O => "" | S k' => String "0" (zeros k') end.

Fixpoint drop_zeros (l : list ascii) : list ascii :=
  match l with
  | c :: l' => if Ascii.eqb c "0" then drop_zeros l' else l
  | [] => []
  end.

(** Drop the trailing ['0'] characters of a string. *)
Definition strip_zeros (s : string) : string :=
  string_of_list_ascii
    (List.rev (drop_zeros (List.rev (list_ascii_of_string s)))).

Definition with_frac (ip fp : string) : string :=
  let fp' := strip_zeros fp in
  match fp' with "" => ip | _ => ip ++ "." ++ fp' end.

(** Six significant digits [m] (10^5 <= m < 10^6) and decimal exponent
    [e] of a positive [a / 10^9], rounded half up. *)
Definition sig6 (a : Z) : Z * Z :=
  let nd := ndigits a in
  let e := nd - 10 in
  let m :=
    if Z.leb nd 6 then a * 10 ^ (6 - nd)
    else (a + 5 * 10 ^ (nd - 7)) / 10 ^ (nd - 6) in
  if Z.eqb m (10 ^ 6) then (10 ^ 5, e + 1) else (m, e).

(** [operator<<] of [Time::GetSeconds()] with the default stream flags:
    [%g] with precision 6 of [t / 10^9]. The value is rounded half up from
    its exact decimal expansion; the double nearest to it only differs
    on exact decimal ties. *)
Definition show_seconds_pos (a : Z) : string :=
  let '(m, e) := sig6 a in
  let ms := digits m in
  if Z.leb (-4) e && Z.ltb e 6 then
    if Z.leb 0 e then
      with_frac (substring 0 (Z.to_nat (e + 1)) ms)
                (substring (Z.to_nat (e + 1)) (Z.to_nat (5 - e)) ms)
    else with_frac "0" (zeros (Z.to_nat (- e - 1)) ++ ms)
  else
    with_frac (substring 0 1 ms) (substring 1 5 ms) ++ "e"
      ++ (if Z.ltb e 0 then "-" else "+")
      ++ (if Z.ltb (Z.abs e) 10 then "0" else "") ++ digits (Z.abs e).

Definition show_time (t : Time) : string :=
  if Z.eqb t 0 then "0"
  else if Z.ltb t 0 then "-" ++ show_seconds_pos (- t)
  else show_seconds_pos t.

Definition endl : string := String (ascii_of_nat 10) "".

(** One line of the log, as the [<<] chains of the callbacks write it. *)
Definition row_line (r : Row) : string :=
  match r with
  | RowHandover t nodeId from to =>
      show_time t ++ ",HANDOVER," ++ show_u32 nodeId ++ ","
        ++ show_mac from ++ "," ++ show_mac to
  | RowAssoc t nodeId apAddr =>
      show_time t ++ ",ASSOC," ++ show_u32 nodeId ++ "," ++ show_mac apAddr
  | RowDeassoc t nodeId apAddr =>
      show_time t ++ ",DEASSOC," ++ show_u32 nodeId ++ "," ++ show_mac apAddr
  end.

Definition header : string := "Time,EventType,StationID,AccessPoint1,AccessPoint2".

(** The whole file: the header written by [main], then one line per row. *)
Definition handover_csv (rows : list Row) : string :=
  header ++ endl ++ fold_right (fun r acc => row_line r ++ endl ++ acc) "" rows.

End Csv.

(* ===================================================================== *)
(** ** Reading [handover_events.csv] back

    The source has no reader for the file; this is the reader a consumer
    of the documented format would use: split into lines on ['\n'], check
    the header, split each line on [','], and decode the station id
    (decimal) and the access point addresses ([xx:xx:xx:xx:xx:xx]). The
    time field is kept as the text that was printed. *)

Module CsvReader.
Import Csv.
Local Open Scope string_scope.

Fixpoint split_on (c : ascii) (s : string) : list string :=
  match s with
  | EmptyString => [""]
  | String a s' =>
      if Ascii.eqb a c then "" :: split_on c s'
      else match split_on c s' with
           | w :: ws => String a w :: ws
           | [] => [String a ""]
           end
  end.

Definition hex_value (a : ascii) : option N :=
  match a with
  | "0" => Some 0%N | "1" => Some 1%N | "2" => Some 2%N | "3" => Some 3%N
  | "4" => Some 4%N | "5" => Some 5%N | "6" => Some 6%N | "7" => Some 7%N
  | "8" => Some 8%N | "9" => Some 9%N | "a" => Some 10%N | "b" => Some 11%N
  | "c" => Some 12%N | "d" => Some 13%N | "e" => Some 14%N | "f" => Some 15%N
  | _ => None
  end%char.

Definition parse_byte (s : string) : option Byte.byte :=
  match s with
  | String h (String l EmptyString) =>
      match hex_value h, hex_value l with
      | Some x, Some y => Byte.of_N (16 * x + y)
      | _, _ => None
      end
  | _ => None
  end.

Definition parse_mac (s : string) : option Mac48Address :=
  match map parse_byte (split_on ":" s) with
  | [Some a0; Some a1; Some a2; Some a3; Some a4; Some a5] =>
      Some (Mac48 a0 a1 a2 a3 a4 a5)
  | _ => None
  end.

Definition parse_u32 (s : string) : option N :=
  option_map N.of_uint (NilEmpty.uint_of_string s).

(** A line read back: the event type, the decoded station id and access
    points, and the time field as text. *)
Inductive ParsedRow :=
| PAssoc (time : string) (nodeId : N) (apAddr : Mac48Address)
| PDeassoc (time : string) (nodeId : N) (apAddr : Mac48Address)
| PHandover (time : string) (nodeId : N) (fromAp toAp : Mac48Address).

Definition parse_line (l : string) : option ParsedRow :=
  match split_on "," l with
  | [t; k; n; a] =>
      match parse_u32 n, parse_mac a with
      | Some n', Some a' =>
          if String.eqb k "ASSOC" then Some (PAssoc t n' a')
          else if String.eqb k "DEASSOC" then Some (PDeassoc t n' a')
          else None
      | _, _ => None
      end
  | [t; k; n; a; b] =>
      match parse_u32 n, parse_mac a, parse_mac b with
      | Some n', Some a', Some b' =>
          if String.eqb k "HANDOVER" then Some (PHandover t n' a' b') else None
      | _, _, _ => None
      end
  | _ => None
  end.

(** The lines after the header; the final newline leaves one empty
    string at the end. *)
Fixpoint parse_lines (ls : list string) : option (list ParsedRow) :=
  match ls with
  | [] => Some []
  | [EmptyString] => Some []
  | l :: ls' =>
      match parse_line l, parse_lines ls' with
      | Some r, Some rs => Some (r :: rs)
      | _, _ => None
      end
  end.

Definition parse_handover_csv (s : string) : option (list ParsedRow) :=
  match split_on (ascii_of_nat 10) s with
  | h :: ls => if String.eqb h header then parse_lines ls else None
  | [] => None
  end.

(** What a row becomes once written and read back. *)
Definition parsed_of_row (r : Row) : ParsedRow :=
  match r with
  | RowAssoc t n a => PAssoc (show_time t) n a
  | RowDeassoc t n a => PDeassoc (show_time t) n a
  | RowHandover t n a b => PHandover (show_time t) n a b
  end.

(** Character classes used to reason about the separators. *)
Fixpoint all_chars (p : ascii -> bool) (s : string) : bool :=
  match s with
  | EmptyString => true
  | String a s' => p a && all_chars p s'
  end.

Definition not_char (c a : ascii) : bool := negb (Ascii.eqb a c).

(** Characters that separate nothing: not [','], not ['\n'], not [':']. *)
Definition field_char (a : ascii) : bool :=
  not_char "," a && not_char (ascii_of_nat 10) a && not_char ":" a.

(** The fields of one line, split on [','] as the file format says. *)
Definition row_fields (r : Row) : list string :=
  match r with
  | RowAssoc t n a => [show_time t; "ASSOC"; show_u32 n; show_mac a]
  | RowDeassoc t n a => [show_time t; "DEASSOC"; show_u32 n; show_mac a]
  | RowHandover t n a b => [show_time t; "HANDOVER"; show_u32 n; show_mac a; show_mac b]
  end.

Lemma str_app_assoc (a b c : string) : (a ++ b) ++ c = a ++ (b ++ c).
Proof. induction a as [|x a IH]; [reflexivity|]. exact (f_equal (String x) IH). Qed.

End CsvReader.

(* ===================================================================== *)
(** ** Views of the log and of the event sequence *)

Definition is_handover_row (r : Row) : bool :=
  match r with RowHandover _ _ _ _ => true | _ => false end.

(** Number of HANDOVER lines of a log. *)
Definition count_handovers (rows : list Row) : nat :=
  List.length (List.filter is_handover_row rows).

(** The access point of the last association of [s] in a sequence of
    events, [None] when [s] never associates. *)
Definition last_assoc (s : NodeId) (evs : list Event) : option Mac48Address :=
  match List.rev (List.filter (is_assoc_of s) evs) with
  | Assoc _ _ a :: _ => Some a
  | _ => None
  end.

(** The access point of the last ASSOC line of [s] in a log, [None]
    when there is none. *)
Definition assoc_row_update (s : NodeId) (acc : option Mac48Address) (r : Row) : option Mac48Address :=
  match r with
  | RowAssoc _ n a => if bool_decide (n = s) then Some a else acc
  | _ => acc
  end.

Definition last_assoc_row (s : NodeId) (rows : list Row) : option Mac48Address :=
  fold_left (assoc_row_update s) rows None.

(** Every HANDOVER line of a log is followed by the ASSOC line of the
    same time and station for its target, its two access points differ,
    and its source is the access point of the station's last ASSOC line
    above it. *)
Definition handover_lines_ok (L : list Row) : Prop :=
  forall k t n a b, L !! k = Some (RowHandover t n a b) ->
    a <> b /\ L !! S k = Some (RowAssoc t n b) /\ last_assoc_row n (take k L) = Some a.

(* ===================================================================== *)
(** ** Node id of the callback context

    Both callbacks start with
    [start = context.find("/NodeList/");
     end = context.find("/Device", start);
     nodeIdStr = context.substr(start + 10, end - (start + 10));
     uint32_t nodeId = std::stoi(nodeIdStr);]
    with [std::string::size_type] (64-bit, unsigned) positions. *)

Module ContextParse.
Local Open Scope Z_scope.
Local Open Scope string_scope.

(** [std::string::npos], the largest [size_type]. *)
Definition npos : Z := 2 ^ 64 - 1.

(** [size_type] arithmetic wraps modulo 2^64. *)
Definition wrap64 (z : Z) : Z := z mod 2 ^ 64.

(** [s.find(needle, pos)]: the first index [i >= pos] at which [needle]
    occurs in [s]; [npos] when there is none, in particular when
    [pos > s.size()]. *)
Definition find (s needle : string) (pos : Z) : Z :=
  if Z.ltb (Z.of_nat (String.length s)) pos then npos
  else match String.index (Z.to_nat pos) needle s with
       | Some i => Z.of_nat i
       | None => npos
       end.

(** The exceptions thrown by [substr] and [std::stoi]. *)
Inductive Exn := out_of_range | invalid_argument.

Inductive Result (A : Type) := Ok (a : A) | Throw (e : Exn).
Arguments Ok {A} a.
Arguments Throw {A} e.

(** [s.substr(pos, count)]: [std::out_of_range] when [pos > s.size()],
    otherwise the [min(count, s.size() - pos)] characters from [pos]. *)
Definition substr (s : string) (pos count : Z) : Result string :=
  let size := Z.of_nat (String.length s) in
  if Z.ltb size pos then Throw out_of_range
  else Ok (substring (Z.to_nat pos) (Z.to_nat (Z.min count (size - pos))) s).

(** [isspace] in the "C" locale: [' '], ['\t'], ['\n'], ['\v'], ['\f'], ['\r']. *)
Definition isspace (c : ascii) : bool :=
  let n := nat_of_ascii c in Nat.eqb n 32 || (Nat.leb 9 n && Nat.leb n 13).

Fixpoint skip_spaces (s : string) : string :=
  match s with
  | String c s' => if isspace c then skip_spaces s' else s
  | EmptyString => EmptyString
  end.

(** Value of a decimal digit character. *)
Definition digit_value (c : ascii) : option Z :=
  let n := Z.of_nat (nat_of_ascii c) in
  if Z.leb 48 n && Z.leb n 57 then Some (n - 48) else None.

(** The characters that have a digit value. *)
Definition isdigit' (c : ascii) : bool :=
  match digit_value c with Some _ => true | None => false end.

(** The value of the longest prefix of decimal digits, accumulated on
    [acc] as [strtol] does. *)
Fixpoint accumulate (acc : Z) (s : string) : Z :=
  match s with
  | String c s' =>
      match digit_value c with
      | Some d => accumulate (acc * 10 + d) s'
      | None => acc
      end
  | EmptyString => acc
  end.

(** [std::stoi(str)] (base 10): [strtol] skips leading white space, reads
    an optional sign and the longest run of decimal digits.
    [std::invalid_argument] when no digit is read, [std::out_of_range]
    when the value does not fit in a 32-bit [int] (including the [long]
    overflow reported by [strtol] through [ERANGE]). *)
Definition stoi (str : string) : Result Z :=
  let s := skip_spaces str in
  let '(neg, body) :=
    match s with
    | String c r =>
        if Ascii.eqb c "-" then (true, r)
        else if Ascii.eqb c "+" then (false, r)
        else (false, s)
    | EmptyString => (false, s)
    end in
  match body with
  | String c _ =>
      match digit_value c with
      | Some _ =>
          let v := accumulate 0 body in
          let v := if neg then - v else v in
          if Z.leb (- 2 ^ 31) v && Z.leb v (2 ^ 31 - 1) then Ok v
          else Throw out_of_range
      | None => Throw invalid_argument
      end
  | EmptyString => Throw invalid_argument
  end.

(** [uint32_t nodeId = std::stoi(nodeIdStr);]: the [int] is converted
    modulo 2^32. *)
Definition nodeId_of_str (nodeIdStr : string) : Result NodeId :=
  match stoi nodeIdStr with
  | Ok v => Ok (Z.to_N (wrap32 v))
  | Throw e => Throw e
  end.

Definition nodeId_of_context (context : string) : Result NodeId :=
  let start := find context "/NodeList/" 0 in
  let end_ := find context "/Device" start in
  match substr context (wrap64 (start + 10)) (wrap64 (end_ - wrap64 (start + 10))) with
  | Ok nodeIdStr => nodeId_of_str nodeIdStr
  | Throw e => Throw e
  end.

End ContextParse.

(* ===================================================================== *)
(** ** [RssiMonitorCallback] and [rssi_measurements.csv] *)

Module RssiMonitor.
Import Propagation Csv.
Local Open Scope R_scope.

(** One line of [rssi_measurements.csv]: [currentTime], [i], [j],
    [staPosition.x], [staPosition.y], [rssi]. *)
Record RssiRow := mkRssiRow {
  rssi_time : Time; rssi_sta : N; rssi_ap : N;
  posX : R; posY : R; rssi_value : R
}.

(** [MilliSeconds(100)]. *)
Definition rssiPeriod : Time := 100000000%Z.

(** One run of [RssiMonitorCallback(staNodes, apNodes)] at time [now].
    [nSta] and [nAp] are [staNodes.GetN()] and [apNodes.GetN()];
    [staPosition t i] and [apPosition t j] are the [GetPosition()] of the
    mobility models of [staNodes.Get(i)] and [apNodes.Get(j)] at time [t].
    For each station [i], for each AP [j], a row with
    [CalculateRssi(apMobility, staMobility)]. *)
Definition RssiMonitorCallback (nSta nAp : nat) (staPosition apPosition : Time -> nat -> Vector)
    (now : Time) : list RssiRow :=
  flat_map (fun i =>
      let staPos := staPosition now i in
      map (fun j =>
             mkRssiRow now (N.of_nat i) (N.of_nat j) (vx staPos) (vy staPos)
               (CalculateRssi (apPosition now j) staPos))
          (seq 0 nAp))
    (seq 0 nSta).

(** The rows written by [k] successive runs from time [now]: each run ends
    with [Simulator::Schedule(MilliSeconds(100), &RssiMonitorCallback,
    staNodes, apNodes)], the same containers again; [main] schedules the
    first run at [Seconds(0.0)]. *)
Fixpoint rssi_trace (nSta nAp : nat) (staPosition apPosition : Time -> nat -> Vector)
    (k : nat) (now : Time) : list RssiRow :=
  match k with
  | O => []
  | S k' => RssiMonitorCallback nSta nAp staPosition apPosition now
              ++ rssi_trace nSta nAp staPosition apPosition k' (now + rssiPeriod)%Z
  end.

Definition rssi_header : string := "Time,StationID,APID,PosX,PosY,RSSI".

(** The [<<] chain of one row; [show_double] is the stream output of a
    [double] other than a [GetSeconds()] time. *)
Definition rssi_line (show_double : R -> string) (r : RssiRow) : string :=
  show_time (rssi_time r) ++ "," ++ show_u32 (rssi_sta r) ++ "," ++ show_u32 (rssi_ap r)
  ++ "," ++ show_double (posX r) ++ "," ++ show_double (posY r)
  ++ "," ++ show_double (rssi_value r).

End RssiMonitor.

(* ===================================================================== *)
(** ** Lines of [flow_stats.csv] *)

Module FlowCsv.
Import FlowAgg Csv.
Local Open Scope Z_scope.
Local Open Scope string_scope.

(** [operator<<] of an [Ipv4Address] (a host-order [uint32_t]): the four
    bytes from the most significant one, in decimal, separated by ['.']. *)
Definition show_ipv4 (a : Z) : string :=
  show_u32 (Z.to_N (Z.land (Z.shiftr a 24) 255)) ++ "."
  ++ show_u32 (Z.to_N (Z.land (Z.shiftr a 16) 255)) ++ "."
  ++ show_u32 (Z.to_N (Z.land (Z.shiftr a 8) 255)) ++ "."
  ++ show_u32 (Z.to_N (Z.land a 255)).

Definition flow_header : string :=
  "FlowID,Source,Destination,TxPackets,RxPackets,LostPackets,DelaySum,JitterSum,LastDelay,TxBytes,RxBytes,Duration,Throughput(Kbps)".

(** The [<<] chain of one iteration of the loop over [stats]: [fid] is
    [i->first], [src] and [dst] the addresses of [classifier->FindFlow];
    [show_double] prints the [double] [throughput]. *)
Definition flow_line (show_double : R -> string) (fid : N) (src dst : Z) (fs : FlowStats) : string :=
  show_u32 fid ++ "," ++ show_ipv4 src ++ "," ++ show_ipv4 dst
  ++ "," ++ show_u32 (txPackets fs) ++ "," ++ show_u32 (rxPackets fs)
  ++ "," ++ show_u32 (lostPackets fs)
  ++ "," ++ show_time (delaySum fs) ++ "," ++ show_time (jitterSum fs)
  ++ "," ++ show_time (lastDelay fs)
  ++ "," ++ show_u32 (txBytes fs) ++ "," ++ show_u32 (rxBytes fs)
  ++ "," ++ show_time (timeLastRxPacket fs - timeFirstTxPacket fs)
  ++ "," ++ show_double (flow_throughput fs).

End FlowCsv.

(* ===================================================================== *)
(** * Association tracker *)

Lemma AssociationCallback_currentAp (st : State) (t : Time) (s : NodeId) (ap : Mac48Address) :
  currentAp (AssociationCallback st t s ap) = <[s := ap]> (currentAp st).
Proof.
  unfold AssociationCallback.
  destruct (currentAp st !! s) as [prev|]; [destruct (mac_eq_dec prev ap)|]; reflexivity.
Qed.

(** Events that are not an association of [s] keep [currentAp !! s]. *)
Lemma run_preserves_lookup (s : NodeId) (evs : list Event) (st : State) :
  forallb (fun e => negb (is_assoc_of s e)) evs = true ->
  currentAp (run st evs) !! s = currentAp st !! s.
Proof.
  revert st. induction evs as [|e evs IH]; intros st Hall; [reflexivity|].
  simpl in Hall. apply andb_true_iff in Hall as [He Hall].
  unfold run; simpl; fold (run (step st e) evs).
  rewrite IH by exact Hall.
  destruct e as [t n a|t n a]; cbn [step]; [|reflexivity].
  rewrite AssociationCallback_currentAp.
  simpl in He. apply negb_true_iff, bool_decide_eq_false in He.
  apply lookup_insert_ne. exact He.
Qed.

(** C1: on [AssociationCallback] for station [s] and access point [ap],
    the [uint32_t] counter [handoverCount] is incremented by exactly one
    (modulo 2^32) when [s] has a recorded [currentAp] different from
    [ap], and is unchanged when [s] has no recorded [currentAp] or the
    recorded one is [ap]. In particular, after any sequence of events
    containing no association of [s], the first association of [s]
    leaves the counter unchanged, whatever [ap] is. *)
Theorem handover_count_increment :
  (forall (st : State) (t : Time) (s : NodeId) (ap prev : Mac48Address),
     currentAp st !! s = Some prev -> prev <> ap ->
     handoverCount (AssociationCallback st t s ap) = wrap32 (handoverCount st + 1)%Z) /\
  (forall (st : State) (t : Time) (s : NodeId) (ap : Mac48Address),
     currentAp st !! s = None \/ currentAp st !! s = Some ap ->
     handoverCount (AssociationCallback st t s ap) = handoverCount st) /\
  (forall (evs : list Event) (t : Time) (s : NodeId) (ap : Mac48Address),
     forallb (fun e => negb (is_assoc_of s e)) evs = true ->
     handoverCount (AssociationCallback (run initState evs) t s ap)
     = handoverCount (run initState evs)).
Proof.
  split; [|split].
  - intros st t s ap prev Hl Hne. unfold AssociationCallback. rewrite Hl.
    destruct (mac_eq_dec prev ap); [contradiction|reflexivity].
  - intros st t s ap [Hl|Hl]; unfold AssociationCallback; rewrite Hl; [reflexivity|].
    destruct (mac_eq_dec ap ap); [reflexivity|contradiction].
  - intros evs t s ap Hall. unfold AssociationCallback.
    rewrite (run_preserves_lookup s evs initState Hall). reflexivity.
Qed.

(** C6: after every [AssociationCallback st t s ap], whatever its
    classification, [currentAp[s]] is [ap] and the entry of every other
    station is unchanged. *)
Theorem associate_sets_currentAp (st : State) (t : Time) (s : NodeId) (ap : Mac48Address) :
  currentAp (AssociationCallback st t s ap) !! s = Some ap /\
  (forall s' : NodeId, s' <> s ->
     currentAp (AssociationCallback st t s ap) !! s' = currentAp st !! s').
Proof.
  rewrite AssociationCallback_currentAp. split.
  - apply lookup_insert_eq.
  - intros s' Hne. apply lookup_insert_ne. congruence.
Qed.

(** C7: [DisassociationCallback st t s ap] appends exactly one DEASSOC
    row for [s] to the log and changes neither [currentAp] (so [s] keeps
    its last associated AP) nor [handoverCount]. *)
Theorem disassociate_frame (st : State) (t : Time) (s : NodeId) (ap : Mac48Address) :
  handoverFile (DisassociationCallback st t s ap) = handoverFile st ++ [RowDeassoc t s ap] /\
  currentAp (DisassociationCallback st t s ap) = currentAp st /\
  handoverCount (DisassociationCallback st t s ap) = handoverCount st.
Proof. repeat split. Qed.

(** C8: a handover ([currentAp[s]] recorded as [prev], different from
    [ap]) appends exactly a HANDOVER row from [prev] to [ap] followed by
    an ASSOC row for [ap]; a first association or a reassociation
    appends exactly one ASSOC row and no HANDOVER row. *)
Theorem associate_log_rows :
  (forall (st : State) (t : Time) (s : NodeId) (ap prev : Mac48Address),
     currentAp st !! s = Some prev -> prev <> ap ->
     handoverFile (AssociationCallback st t s ap)
     = handoverFile st ++ [RowHandover t s prev ap; RowAssoc t s ap]) /\
  (forall (st : State) (t : Time) (s : NodeId) (ap : Mac48Address),
     currentAp st !! s = None \/ currentAp st !! s = Some ap ->
     handoverFile (AssociationCallback st t s ap) = handoverFile st ++ [RowAssoc t s ap]).
Proof.
  split.
  - intros st t s ap prev Hl Hne. unfold AssociationCallback. rewrite Hl.
    destruct (mac_eq_dec prev ap); [contradiction|]. simpl.
    rewrite <- app_assoc. reflexivity.
  - intros st t s ap [Hl|Hl]; unfold AssociationCallback; rewrite Hl; [reflexivity|].
    destruct (mac_eq_dec ap ap); [reflexivity|contradiction].
Qed.

(* ===================================================================== *)
(** * Propagation model *)

Module PropagationFacts.
Import Propagation.
Local Open Scope R_scope.

Lemma distance_pow_agrees (a b : Vector) :
  CalculateDistancePow a b = CalculateDistance a b.
Proof.
  unfold CalculateDistancePow, CalculateDistance. f_equal. ring.
Qed.

Lemma distance_on_x_axis (x : R) :
  0 <= x -> CalculateDistance (Vec 0 0 0) (Vec x 0 0) = x.
Proof.
  intros Hx. unfold CalculateDistance; simpl.
  replace ((x - 0) * (x - 0) + (0 - 0) * (0 - 0) + (0 - 0) * (0 - 0)) with (x * x) by ring.
  apply sqrt_square; exact Hx.
Qed.

Lemma ln_10_pos : 0 < ln 10.
Proof.
  rewrite <- ln_1. apply ln_increasing; lra.
Qed.

Lemma log10_increasing (x y : R) : 0 < x -> x < y -> log10 x < log10 y.
Proof.
  intros Hx Hxy. unfold log10, Rdiv.
  apply Rmult_lt_compat_r.
  - apply Rinv_0_lt_compat, ln_10_pos.
  - apply ln_increasing; assumption.
Qed.

(** C2: with the constants of [CalculateRssi] (16 dBm, exponent 3,
    reference distance 1 m, reference loss 46.6777 dB), the result is
    exactly [txPowerDbm - referenceLoss] whenever the distance between
    the positions is at most the reference distance (zero distance
    included: that branch contains no [log10]), and
    [txPowerDbm - (referenceLoss + 10 * exponent * log10 (distance /
    referenceDistance))] whenever the distance exceeds it. *)
Theorem CalculateRssi_spec (tx rx : Vector) :
  (txPowerDbm = 16 /\ exponent = 3 /\ referenceDistance = 1 /\
   referenceLoss = 46.6777) /\
  (CalculateDistance tx rx <= referenceDistance ->
   CalculateRssi tx rx = txPowerDbm - referenceLoss) /\
  (referenceDistance < CalculateDistance tx rx ->
   CalculateRssi tx rx
   = txPowerDbm - (referenceLoss + 10 * exponent
                     * log10 (CalculateDistance tx rx / referenceDistance))).
Proof.
  split; [|split].
  - unfold txPowerDbm, exponent, referenceDistance, referenceLoss.
    repeat split; lra.
  - intros Hle. unfold CalculateRssi.
    destruct (Rle_dec (CalculateDistance tx rx) referenceDistance); [reflexivity|contradiction].
  - intros Hgt. unfold CalculateRssi.
    destruct (Rle_dec (CalculateDistance tx rx) referenceDistance); [lra|reflexivity].
Qed.

(** C3: beyond the reference distance, the RSSI does not increase with
    the distance: for [referenceDistance < d1 < d2], the RSSI at
    distance [d1] is at least the RSSI at distance [d2]. *)
Theorem CalculateRssi_antitone (tx1 rx1 tx2 rx2 : Vector) :
  referenceDistance < CalculateDistance tx1 rx1 ->
  CalculateDistance tx1 rx1 < CalculateDistance tx2 rx2 ->
  CalculateRssi tx2 rx2 <= CalculateRssi tx1 rx1.
Proof.
  intros H1 H12. unfold CalculateRssi.
  destruct (Rle_dec (CalculateDistance tx1 rx1) referenceDistance); [lra|].
  destruct (Rle_dec (CalculateDistance tx2 rx2) referenceDistance); [lra|].
  assert (Hlog : log10 (CalculateDistance tx1 rx1 / referenceDistance)
                 < log10 (CalculateDistance tx2 rx2 / referenceDistance)).
  { unfold referenceDistance in *. rewrite !Rdiv_1_r.
    apply log10_increasing; lra. }
  unfold exponent. lra.
Qed.

End PropagationFacts.

(* ===================================================================== *)
(** * Flow statistics *)

Module FlowAggFacts.
Import FlowAgg.
Local Open Scope R_scope.

Lemma GetSeconds_sub (a b : Time) :
  GetSeconds (a - b)%Z = GetSeconds a - GetSeconds b.
Proof. unfold GetSeconds. rewrite minus_IZR. field. Qed.

(** C4 (counterexample): a flow that sent one packet at t = 1 s and
    received nothing keeps [timeLastRxPacket] at its initial value 0; its
    duration is then -1 s, neither 0 nor non-negative. *)
Lemma flow_duration_negative_without_rx :
  let fs := mkFlowStats 0%Z 0%Z 0%Z 4124%N 0%N 1%N 0%N 1%N 1000000000%Z 0%Z in
  rxPackets fs = 0%N /\ rxBytes fs = 0%N /\
  durationSeconds (flow_report 1 fs) = -1 /\ durationSeconds (flow_report 1 fs) < 0.
Proof.
  cbn [durationSeconds flow_report rxPackets rxBytes].
  unfold flow_duration, GetSeconds; cbn [timeLastRxPacket timeFirstTxPacket].
  assert (Hd : IZR (0 - 1000000000) / 10 ^ 9 = -1)
    by (rewrite minus_IZR; simpl; field).
  rewrite Hd. repeat split; lra.
Qed.

(** C4 (amended): for every flow, [durationSeconds] (the value written to
    the Duration column) is [timeLastRxPacket - timeFirstTxPacket] in
    seconds, without clamping; it is negative whenever
    [timeLastRxPacket] precedes [timeFirstTxPacket], as for a flow with
    no received packet and a positive first transmission time. *)
Theorem flow_duration_spec (fid : N) (fs : FlowStats) :
  durationSeconds (flow_report fid fs)
    = GetSeconds (timeLastRxPacket fs) - GetSeconds (timeFirstTxPacket fs) /\
  ((timeLastRxPacket fs < timeFirstTxPacket fs)%Z -> durationSeconds (flow_report fid fs) < 0).
Proof.
  simpl. unfold flow_duration. rewrite GetSeconds_sub. split; [reflexivity|].
  intros Hlt. unfold GetSeconds.
  apply IZR_lt in Hlt. lra.
Qed.

(** C5: [throughputKbps] is 0 when [durationSeconds <= 0] and
    [rxBytes * 8 / 1000 / durationSeconds] otherwise; [meanDelaySeconds]
    is 0 when [rxPackets = 0] and [delaySum / rxPackets] otherwise; a
    flow with no received traffic gets both derived values 0. *)
Theorem flow_derived_fields (fid : N) (fs : FlowStats) :
  let rep := flow_report fid fs in
  (durationSeconds rep <= 0 -> throughputKbps rep = 0) /\
  (0 < durationSeconds rep ->
   throughputKbps rep = IZR (Z.of_N (rxBytes fs)) * 8 / 1000 / durationSeconds rep) /\
  (rxPackets fs = 0%N -> meanDelaySeconds rep = 0) /\
  ((0 < rxPackets fs)%N ->
   meanDelaySeconds rep = GetSeconds (delaySum fs) / IZR (Z.of_N (rxPackets fs))) /\
  (rxPackets fs = 0%N -> rxBytes fs = 0%N -> throughputKbps rep = 0 /\ meanDelaySeconds rep = 0).
Proof.
  simpl. unfold flow_throughput, flow_mean_delay.
  split; [|split; [|split; [|split]]].
  - intros Hle. destruct (Rlt_dec 0 (flow_duration fs)); [lra|reflexivity].
  - intros Hlt. destruct (Rlt_dec 0 (flow_duration fs)); [|contradiction].
    field. lra.
  - intros H0. rewrite H0. reflexivity.
  - intros Hpos. apply N.ltb_lt in Hpos. rewrite Hpos. reflexivity.
  - intros H0 Hb. rewrite H0, Hb. split; [|reflexivity].
    destruct (Rlt_dec 0 (flow_duration fs)); [simpl; field; lra|reflexivity].
Qed.

End FlowAggFacts.

(* ===================================================================== *)
(** * Text of [handover_events.csv] *)

Module CsvFacts.
Import Csv CsvReader.
Local Open Scope string_scope.

Lemma all_chars_app (p : ascii -> bool) (s1 s2 : string) :
  all_chars p (s1 ++ s2) = all_chars p s1 && all_chars p s2.
Proof.
  induction s1 as [|a s1 IH]; simpl; [reflexivity|]. rewrite IH, andb_assoc. reflexivity.
Qed.

Lemma all_chars_app_true (p : ascii -> bool) (s1 s2 : string) :
  all_chars p s1 = true -> all_chars p s2 = true -> all_chars p (s1 ++ s2) = true.
Proof. intros H1 H2. rewrite all_chars_app, H1, H2. reflexivity. Qed.

Lemma all_chars_impl (p q : ascii -> bool) (s : string) :
  (forall a, p a = true -> q a = true) -> all_chars p s = true -> all_chars q s = true.
Proof.
  intros Hpq. induction s as [|a s IH]; simpl; [reflexivity|].
  intros [Ha Hs]%andb_true_iff. rewrite (Hpq a Ha), (IH Hs). reflexivity.
Qed.

Lemma all_chars_list (p : ascii -> bool) (l : list ascii) :
  all_chars p (string_of_list_ascii l) = forallb p l.
Proof. induction l as [|a l IH]; simpl; [reflexivity|]. rewrite IH. reflexivity. Qed.

Lemma all_chars_list' (p : ascii -> bool) (s : string) :
  all_chars p s = forallb p (list_ascii_of_string s).
Proof. induction s as [|a s IH]; simpl; [reflexivity|]. rewrite IH. reflexivity. Qed.

Lemma forallb_rev' (p : ascii -> bool) (l : list ascii) :
  forallb p (List.rev l) = forallb p l.
Proof.
  induction l as [|a l IH]; simpl; [reflexivity|].
  rewrite forallb_app, IH. simpl. rewrite andb_true_r, andb_comm. reflexivity.
Qed.

Lemma forallb_drop_zeros (p : ascii -> bool) (l : list ascii) :
  forallb p l = true -> forallb p (drop_zeros l) = true.
Proof.
  induction l as [|a l IH]; simpl; [reflexivity|].
  intros [Ha Hl]%andb_true_iff.
  destruct (Ascii.eqb a "0"); [apply IH, Hl|]. simpl. rewrite Ha, Hl. reflexivity.
Qed.

Lemma strip_zeros_chars (p : ascii -> bool) (s : string) :
  all_chars p s = true -> all_chars p (strip_zeros s) = true.
Proof.
  intros H. unfold strip_zeros. rewrite all_chars_list, forallb_rev'.
  apply forallb_drop_zeros. rewrite forallb_rev', <- all_chars_list'. exact H.
Qed.

Lemma substring_chars (p : ascii -> bool) (n m : nat) (s : string) :
  all_chars p s = true -> all_chars p (substring n m s) = true.
Proof.
  revert n m. induction s as [|a s IH]; intros n m H.
  - destruct n, m; reflexivity.
  - simpl in H. apply andb_true_iff in H as [Ha Hs].
    destruct n as [|n]; [destruct m as [|m]|]; simpl.
    + reflexivity.
    + rewrite Ha. apply IH, Hs.
    + apply IH, Hs.
Qed.

Lemma uint_chars (d : uint) : all_chars field_char (NilEmpty.string_of_uint d) = true.
Proof. induction d; simpl; auto. Qed.

Lemma show_u32_chars (n : N) : all_chars field_char (show_u32 n) = true.
Proof. apply uint_chars. Qed.

Lemma digits_chars (z : Z) : all_chars field_char (digits z) = true.
Proof. apply show_u32_chars. Qed.

Lemma zeros_chars (k : nat) : all_chars field_char (zeros k) = true.
Proof. induction k; simpl; auto. Qed.

Lemma with_frac_chars (ip fp : string) :
  all_chars field_char ip = true -> all_chars field_char fp = true ->
  all_chars field_char (with_frac ip fp) = true.
Proof.
  intros Hi Hf. unfold with_frac.
  pose proof (strip_zeros_chars field_char fp Hf) as Hs.
  destruct (strip_zeros fp) as [|a s] eqn:E; [exact Hi|].
  apply all_chars_app_true; [exact Hi|]. simpl. simpl in Hs. exact Hs.
Qed.

Ltac solve_chars :=
  repeat first
    [ apply all_chars_app_true
    | apply with_frac_chars
    | apply substring_chars
    | apply digits_chars
    | apply zeros_chars
    | reflexivity ].

Lemma show_time_chars (t : Time) : all_chars field_char (show_time t) = true.
Proof.
  assert (Hpos : forall a, all_chars field_char (show_seconds_pos a) = true).
  { intros a. unfold show_seconds_pos. destruct (sig6 a) as [m e].
    destruct (Z.leb (-4) e && Z.ltb e 6); [destruct (Z.leb 0 e)|];
      [solve_chars | solve_chars|].
    destruct (Z.ltb e 0), (Z.ltb (Z.abs e) 10); solve_chars. }
  unfold show_time.
  destruct (Z.eqb t 0); [reflexivity|].
  destruct (Z.ltb t 0); [apply all_chars_app_true; [reflexivity|]|]; apply Hpos.
Qed.

Lemma show_byte_chars (b : Byte.byte) : all_chars field_char (show_byte b) = true.
Proof. destruct b; reflexivity. Qed.

Lemma app_sep (c : ascii) (s r : string) : s ++ (String c EmptyString ++ r) = s ++ String c r.
Proof. reflexivity. Qed.

Lemma field_char_not (c : ascii) (s : string) :
  c = ","%char \/ c = ascii_of_nat 10 \/ c = ":"%char ->
  all_chars field_char s = true -> all_chars (not_char c) s = true.
Proof.
  intros Hc. apply all_chars_impl. intros a Ha.
  unfold field_char in Ha. apply andb_true_iff in Ha as [[H1 H2]%andb_true_iff H3].
  destruct Hc as [->|[->| ->]]; assumption.
Qed.

(** Characters of a printed address: anything but [','] and ['\n']. *)
Lemma show_mac_chars (c : ascii) (m : Mac48Address) :
  c = ","%char \/ c = ascii_of_nat 10 -> all_chars (not_char c) (show_mac m) = true.
Proof.
  intros Hc.
  assert (Hb : forall b, all_chars (not_char c) (show_byte b) = true).
  { intros b. apply field_char_not; [tauto|apply show_byte_chars]. }
  assert (Hsep : not_char c ":" = true) by (destruct Hc as [-> | ->]; reflexivity).
  unfold show_mac. rewrite !app_sep.
  repeat (apply all_chars_app_true; [apply Hb|]; cbn [all_chars]; rewrite Hsep; cbn [andb]).
  apply Hb.
Qed.

Lemma split_on_none (c : ascii) (s : string) :
  all_chars (not_char c) s = true -> split_on c s = [s].
Proof.
  induction s as [|a s IH]; simpl; [reflexivity|].
  intros [Ha Hs]%andb_true_iff. unfold not_char in Ha. apply negb_true_iff in Ha.
  rewrite Ha, (IH Hs). reflexivity.
Qed.

Lemma split_on_app (c : ascii) (s r : string) :
  all_chars (not_char c) s = true -> split_on c (s ++ String c r) = s :: split_on c r.
Proof.
  induction s as [|a s IH]; simpl.
  - intros _. rewrite Ascii.eqb_refl. reflexivity.
  - intros [Ha Hs]%andb_true_iff. unfold not_char in Ha. apply negb_true_iff in Ha.
    rewrite Ha, (IH Hs). reflexivity.
Qed.

Lemma parse_byte_show (b : Byte.byte) : parse_byte (show_byte b) = Some b.
Proof. destruct b; reflexivity. Qed.

Lemma parse_mac_show (m : Mac48Address) : parse_mac (show_mac m) = Some m.
Proof.
  assert (Hb : forall b, all_chars (not_char ":") (show_byte b) = true).
  { intros b. apply field_char_not; [tauto|apply show_byte_chars]. }
  unfold parse_mac, show_mac. rewrite !app_sep.
  rewrite !split_on_app by apply Hb. rewrite split_on_none by apply Hb.
  cbn [map]. rewrite !parse_byte_show. destruct m; reflexivity.
Qed.

Lemma parse_u32_show (n : N) : parse_u32 (show_u32 n) = Some n.
Proof.
  unfold parse_u32, show_u32. rewrite NilEmpty.usu. simpl.
  rewrite DecimalN.Unsigned.of_to. reflexivity.
Qed.

Lemma lit_kind (k x : string) :
  String "," (k ++ ",") ++ x = String "," (k ++ String "," x).
Proof. exact (f_equal (String ",") (str_app_assoc k "," x)). Qed.

Lemma split_row_line (r : Row) : split_on "," (row_line r) = row_fields r.
Proof.
  assert (Ht : forall t, all_chars (not_char ",") (show_time t) = true)
    by (intros; apply field_char_not; [tauto|apply show_time_chars]).
  assert (Hn : forall n, all_chars (not_char ",") (show_u32 n) = true)
    by (intros; apply field_char_not; [tauto|apply show_u32_chars]).
  assert (Hm : forall m, all_chars (not_char ",") (show_mac m) = true)
    by (intros; apply show_mac_chars; tauto).
  destruct r as [t n a|t n a|t n a b]; unfold row_line, row_fields;
    rewrite ?app_sep.
  - change ",ASSOC," with (String "," ("ASSOC" ++ ",")). rewrite lit_kind.
    rewrite split_on_app by apply Ht.
    rewrite (split_on_app "," "ASSOC") by reflexivity.
    rewrite split_on_app by apply Hn. rewrite split_on_none by apply Hm. reflexivity.
  - change ",DEASSOC," with (String "," ("DEASSOC" ++ ",")). rewrite lit_kind.
    rewrite split_on_app by apply Ht.
    rewrite (split_on_app "," "DEASSOC") by reflexivity.
    rewrite split_on_app by apply Hn. rewrite split_on_none by apply Hm. reflexivity.
  - change ",HANDOVER," with (String "," ("HANDOVER" ++ ",")). rewrite lit_kind.
    rewrite split_on_app by apply Ht.
    rewrite (split_on_app "," "HANDOVER") by reflexivity.
    rewrite split_on_app by apply Hn. rewrite split_on_app by apply Hm.
    rewrite split_on_none by apply Hm. reflexivity.
Qed.

Lemma row_line_chars (r : Row) : all_chars (not_char (ascii_of_nat 10)) (row_line r) = true.
Proof.
  assert (Ht : forall t, all_chars (not_char (ascii_of_nat 10)) (show_time t) = true)
    by (intros; apply field_char_not; [tauto|apply show_time_chars]).
  assert (Hn : forall n, all_chars (not_char (ascii_of_nat 10)) (show_u32 n) = true)
    by (intros; apply field_char_not; [tauto|apply show_u32_chars]).
  assert (Hm : forall m, all_chars (not_char (ascii_of_nat 10)) (show_mac m) = true)
    by (intros; apply show_mac_chars; tauto).
  destruct r; unfold row_line;
    repeat first [ apply Ht | apply Hn | apply Hm | reflexivity | apply all_chars_app_true ].
Qed.

Lemma app_endl (s r : string) : s ++ endl ++ r = s ++ String (ascii_of_nat 10) r.
Proof. reflexivity. Qed.

Lemma split_rows (rows : list Row) :
  split_on (ascii_of_nat 10) (fold_right (fun r acc => row_line r ++ endl ++ acc) "" rows)
  = List.app (map row_line rows) [""].
Proof.
  induction rows as [|r rows IH]; [reflexivity|].
  cbn [fold_right map]. rewrite app_endl.
  rewrite split_on_app by apply row_line_chars. rewrite IH. reflexivity.
Qed.

Lemma split_handover_csv (rows : list Row) :
  split_on (ascii_of_nat 10) (handover_csv rows) = header :: List.app (map row_line rows) [""].
Proof.
  unfold handover_csv. rewrite app_endl.
  rewrite split_on_app by reflexivity. rewrite split_rows. reflexivity.
Qed.

Lemma parse_lines_cons (l : string) (ls : list string) :
  ls <> [] ->
  parse_lines (l :: ls) =
  match parse_line l, parse_lines ls with
  | Some r, Some rs => Some (r :: rs)
  | _, _ => None
  end.
Proof.
  intros Hne. destruct ls as [|x xs]; [congruence|]. destruct l; reflexivity.
Qed.

Lemma parse_row_line (r : Row) : parse_line (row_line r) = Some (parsed_of_row r).
Proof.
  unfold parse_line. rewrite split_row_line.
  destruct r; cbv beta iota delta [row_fields];
    rewrite ?parse_u32_show, ?parse_mac_show; reflexivity.
Qed.

Lemma parse_rows (rows : list Row) :
  parse_lines (List.app (map row_line rows) [""]) = Some (map parsed_of_row rows).
Proof.
  induction rows as [|r rows IH]; [reflexivity|].
  cbn [map List.app]. rewrite parse_lines_cons by (destruct rows; discriminate).
  rewrite parse_row_line, IH. reflexivity.
Qed.

Lemma parse_handover_csv_rows (rows : list Row) :
  parse_handover_csv (handover_csv rows) = Some (map parsed_of_row rows).
Proof.
  unfold parse_handover_csv. rewrite split_handover_csv.
  rewrite String.eqb_refl. apply parse_rows.
Qed.

(** C10: in [handover_events.csv] the header line has 5 comma-separated
    fields, every HANDOVER line has 5, and every ASSOC or DEASSOC line
    has exactly 4 (no empty fifth field), so those lines have fewer
    fields than the header. *)
Theorem csv_field_counts :
  List.length (split_on "," header) = 5%nat /\
  (forall r : Row,
     List.length (split_on "," (row_line r))
     = match r with RowHandover _ _ _ _ => 5%nat | _ => 4%nat end) /\
  (forall (t : Time) (n : NodeId) (a : Mac48Address),
     split_on "," (row_line (RowAssoc t n a)) = [show_time t; "ASSOC"; show_u32 n; show_mac a] /\
     split_on "," (row_line (RowDeassoc t n a)) = [show_time t; "DEASSOC"; show_u32 n; show_mac a]).
Proof.
  split; [reflexivity|split].
  - intros r. rewrite split_row_line. destruct r; reflexivity.
  - intros t n a. rewrite !split_row_line. split; reflexivity.
Qed.

(** C9 (counterexample): the time column is [Time::GetSeconds()] printed
    with the default precision of 6 significant digits, so an association
    at 1 s and one at 1.0000001 s give the same file; no reader can
    recover the rows of every event sequence from the file. *)
Lemma handover_csv_not_invertible :
  ~ (exists parse : string -> list Row,
       forall evs : list Event,
         parse (handover_csv (handoverFile (run initState evs)))
         = handoverFile (run initState evs)).
Proof.
  intros [parse Hp].
  pose (ap := Mac48 Byte.x00 Byte.x00 Byte.x00 Byte.x00 Byte.x00 Byte.x01).
  pose proof (Hp [Assoc 1000000000%Z 0%N ap]) as H1.
  pose proof (Hp [Assoc 1000000100%Z 0%N ap]) as H2.
  assert (E : handover_csv (handoverFile (run initState [Assoc 1000000000%Z 0%N ap]))
            = handover_csv (handoverFile (run initState [Assoc 1000000100%Z 0%N ap])))
    by (vm_compute; reflexivity).
  rewrite E, H2 in H1. vm_compute in H1. congruence.
Qed.

(** C9 (amended): writing the rows produced by any event sequence to
    [handover_events.csv] and reading the file back yields, in order,
    every row's event type, station id and access point addresses
    exactly, with its time as the 6-significant-digit text printed for
    [Time::GetSeconds()]. *)
Theorem handover_csv_roundtrip (evs : list Event) :
  parse_handover_csv (handover_csv (handoverFile (run initState evs)))
  = Some (map parsed_of_row (handoverFile (run initState evs))).
Proof. apply parse_handover_csv_rows. Qed.

End CsvFacts.

(* ===================================================================== *)
(** * Instances of the theorems on the scenarios of the specification *)

Module Witnesses.
Import Propagation PropagationFacts FlowAgg FlowAggFacts.

(** S0 associates with AA at 1 s, then with BB at 5 s (a handover); an
    association after a mere disassociation is a first association. *)
Lemma handover_count_increment_witness :
  (currentAp (AssociationCallback initState 1000000000%Z 0%N apAA) !! 0%N = Some apAA /\
   apAA <> apBB /\
   handoverCount (AssociationCallback (AssociationCallback initState 1000000000%Z 0%N apAA)
                    5000000000%Z 0%N apBB)
   = wrap32 (handoverCount (AssociationCallback initState 1000000000%Z 0%N apAA) + 1)%Z) /\
  ((currentAp (AssociationCallback initState 1000000000%Z 0%N apAA) !! 0%N = None \/
    currentAp (AssociationCallback initState 1000000000%Z 0%N apAA) !! 0%N = Some apAA) /\
   handoverCount (AssociationCallback (AssociationCallback initState 1000000000%Z 0%N apAA)
                    8000000000%Z 0%N apAA)
   = handoverCount (AssociationCallback initState 1000000000%Z 0%N apAA)) /\
  (forallb (fun e => negb (is_assoc_of 0%N e)) [DeAssoc 500000000%Z 0%N apBB; Assoc 600000000%Z 1%N apAA] = true /\
   handoverCount (AssociationCallback (run initState [DeAssoc 500000000%Z 0%N apBB; Assoc 600000000%Z 1%N apAA])
                    1000000000%Z 0%N apAA)
   = handoverCount (run initState [DeAssoc 500000000%Z 0%N apBB; Assoc 600000000%Z 1%N apAA])).
Proof.
  destruct handover_count_increment as [Hh [Hs Hf]].
  split; [|split].
  - assert (Hl : currentAp (AssociationCallback initState 1000000000%Z 0%N apAA) !! 0%N = Some apAA)
      by (vm_compute; reflexivity).
    assert (Hne : apAA <> apBB) by discriminate.
    split; [exact Hl|split; [exact Hne|]].
    exact (Hh _ 5000000000%Z 0%N apBB apAA Hl Hne).
  - assert (Hl : currentAp (AssociationCallback initState 1000000000%Z 0%N apAA) !! 0%N = None \/
                 currentAp (AssociationCallback initState 1000000000%Z 0%N apAA) !! 0%N = Some apAA)
      by (right; vm_compute; reflexivity).
    split; [exact Hl|]. exact (Hs _ 8000000000%Z 0%N apAA Hl).
  - assert (Hall : forallb (fun e => negb (is_assoc_of 0%N e))
                     [DeAssoc 500000000%Z 0%N apBB; Assoc 600000000%Z 1%N apAA] = true)
      by (vm_compute; reflexivity).
    split; [exact Hall|]. exact (Hf _ 1000000000%Z 0%N apAA Hall).
Defined.

Lemma associate_sets_currentAp_witness :
  currentAp (AssociationCallback initState 1000000000%Z 0%N apAA) !! 0%N = Some apAA /\
  (1%N <> 0%N /\
   currentAp (AssociationCallback initState 1000000000%Z 0%N apAA) !! 1%N = currentAp initState !! 1%N).
Proof.
  destruct (associate_sets_currentAp initState 1000000000%Z 0%N apAA) as [Hs Ho].
  split; [exact Hs|].
  assert (Hne : 1%N <> 0%N) by discriminate.
  split; [exact Hne|exact (Ho 1%N Hne)].
Defined.

Lemma associate_log_rows_witness :
  (currentAp (AssociationCallback initState 1000000000%Z 0%N apAA) !! 0%N = Some apAA /\
   apAA <> apBB /\
   handoverFile (AssociationCallback (AssociationCallback initState 1000000000%Z 0%N apAA)
                   5000000000%Z 0%N apBB)
   = handoverFile (AssociationCallback initState 1000000000%Z 0%N apAA)
     ++ [RowHandover 5000000000%Z 0%N apAA apBB; RowAssoc 5000000000%Z 0%N apBB]) /\
  ((currentAp initState !! 0%N = None \/ currentAp initState !! 0%N = Some apAA) /\
   handoverFile (AssociationCallback initState 1000000000%Z 0%N apAA)
   = handoverFile initState ++ [RowAssoc 1000000000%Z 0%N apAA]).
Proof.
  destruct associate_log_rows as [Hh Hs].
  split.
  - assert (Hl : currentAp (AssociationCallback initState 1000000000%Z 0%N apAA) !! 0%N = Some apAA)
      by (vm_compute; reflexivity).
    assert (Hne : apAA <> apBB) by discriminate.
    split; [exact Hl|split; [exact Hne|]].
    exact (Hh _ 5000000000%Z 0%N apBB apAA Hl Hne).
  - assert (Hl : currentAp initState !! 0%N = None \/ currentAp initState !! 0%N = Some apAA)
      by (left; reflexivity).
    split; [exact Hl|]. exact (Hs _ 1000000000%Z 0%N apAA Hl).
Defined.

Local Open Scope R_scope.

(** Zero distance, and the 10 m example of the specification. *)
Lemma CalculateRssi_spec_witness :
  (CalculateDistance (Vec 0 0 0) (Vec 0 0 0) <= referenceDistance /\
   CalculateRssi (Vec 0 0 0) (Vec 0 0 0) = txPowerDbm - referenceLoss) /\
  (referenceDistance < CalculateDistance (Vec 0 0 0) (Vec 10 0 0) /\
   CalculateRssi (Vec 0 0 0) (Vec 10 0 0)
   = txPowerDbm - (referenceLoss + 10 * exponent
                     * log10 (CalculateDistance (Vec 0 0 0) (Vec 10 0 0) / referenceDistance))).
Proof.
  destruct (CalculateRssi_spec (Vec 0 0 0) (Vec 0 0 0)) as [_ [Hle _]].
  destruct (CalculateRssi_spec (Vec 0 0 0) (Vec 10 0 0)) as [_ [_ Hgt]].
  assert (H0 : CalculateDistance (Vec 0 0 0) (Vec 0 0 0) <= referenceDistance)
    by (rewrite distance_on_x_axis by lra; unfold referenceDistance; lra).
  assert (H10 : referenceDistance < CalculateDistance (Vec 0 0 0) (Vec 10 0 0))
    by (rewrite distance_on_x_axis by lra; unfold referenceDistance; lra).
  split; split; [exact H0 | exact (Hle H0) | exact H10 | exact (Hgt H10)].
Defined.

Lemma CalculateRssi_antitone_witness :
  referenceDistance < CalculateDistance (Vec 0 0 0) (Vec 2 0 0) /\
  CalculateDistance (Vec 0 0 0) (Vec 2 0 0) < CalculateDistance (Vec 0 0 0) (Vec 3 0 0) /\
  CalculateRssi (Vec 0 0 0) (Vec 3 0 0) <= CalculateRssi (Vec 0 0 0) (Vec 2 0 0).
Proof.
  assert (H1 : referenceDistance < CalculateDistance (Vec 0 0 0) (Vec 2 0 0))
    by (rewrite distance_on_x_axis by lra; unfold referenceDistance; lra).
  assert (H2 : CalculateDistance (Vec 0 0 0) (Vec 2 0 0) < CalculateDistance (Vec 0 0 0) (Vec 3 0 0))
    by (rewrite !distance_on_x_axis by lra; lra).
  split; [exact H1|split; [exact H2|]].
  exact (CalculateRssi_antitone _ _ _ _ H1 H2).
Defined.

(** A flow that sent at 1 s and received nothing. *)
Lemma flow_duration_spec_witness :
  (0 < 1000000000)%Z /\
  durationSeconds (flow_report 1%N (mkFlowStats 0%Z 0%Z 0%Z 4124%N 0%N 1%N 0%N 1%N 1000000000%Z 0%Z)) < 0.
Proof.
  assert (Hlt : (0 < 1000000000)%Z) by lia.
  split; [exact Hlt|].
  exact (proj2 (flow_duration_spec 1%N (mkFlowStats 0%Z 0%Z 0%Z 4124%N 0%N 1%N 0%N 1%N 1000000000%Z 0%Z)) Hlt).
Defined.

(** The flow of the specification (900000 bytes received between 1 s
    and 9 s: 900 kbps) and a flow with no traffic at all. *)
Lemma flow_derived_fields_witness :
  (0 < durationSeconds (flow_report 1%N (mkFlowStats 1000000000%Z 0%Z 0%Z 1000000%N 900000%N 1000%N 100%N 0%N 1000000000%Z 9000000000%Z)) /\
   throughputKbps (flow_report 1%N (mkFlowStats 1000000000%Z 0%Z 0%Z 1000000%N 900000%N 1000%N 100%N 0%N 1000000000%Z 9000000000%Z)) = 900) /\
  ((0 < 100)%N /\
   meanDelaySeconds (flow_report 1%N (mkFlowStats 1000000000%Z 0%Z 0%Z 1000000%N 900000%N 1000%N 100%N 0%N 1000000000%Z 9000000000%Z)) = 1 / 100) /\
  (durationSeconds (flow_report 2%N (mkFlowStats 0%Z 0%Z 0%Z 0%N 0%N 0%N 0%N 0%N 0%Z 0%Z)) <= 0 /\
   throughputKbps (flow_report 2%N (mkFlowStats 0%Z 0%Z 0%Z 0%N 0%N 0%N 0%N 0%N 0%Z 0%Z)) = 0 /\
   meanDelaySeconds (flow_report 2%N (mkFlowStats 0%Z 0%Z 0%Z 0%N 0%N 0%N 0%N 0%N 0%Z 0%Z)) = 0).
Proof.
  set (fs := mkFlowStats 1000000000%Z 0%Z 0%Z 1000000%N 900000%N 1000%N 100%N 0%N 1000000000%Z 9000000000%Z).
  set (z := mkFlowStats 0%Z 0%Z 0%Z 0%N 0%N 0%N 0%N 0%N 0%Z 0%Z).
  destruct (flow_derived_fields 1%N fs) as [_ [Hpos [_ [Hmean _]]]].
  destruct (flow_derived_fields 2%N z) as [Hle [_ [H0 [_ Hzero]]]].
  assert (Hd : durationSeconds (flow_report 1%N fs) = 8).
  { cbn [durationSeconds flow_report]. unfold flow_duration, GetSeconds.
    cbn [timeLastRxPacket timeFirstTxPacket fs].
    rewrite minus_IZR. simpl. field. }
  assert (Hd0 : durationSeconds (flow_report 2%N z) <= 0).
  { cbn [durationSeconds flow_report]. unfold flow_duration, GetSeconds.
    cbn [timeLastRxPacket timeFirstTxPacket z]. change (0 - 0)%Z with 0%Z.
    rewrite Rdiv_0_l. lra. }
  assert (Hp : (0 < 100)%N) by lia.
  assert (Hd8 : 0 < durationSeconds (flow_report 1%N fs)) by lra.
  split; [|split].
  - split; [exact Hd8|]. rewrite (Hpos Hd8), Hd. simpl. lra.
  - split; [exact Hp|]. rewrite (Hmean Hp). unfold GetSeconds. simpl. field.
  - destruct (Hzero eq_refl eq_refl) as [Ht Hm].
    split; [exact Hd0|split; [exact Ht|exact Hm]].
Defined.

End Witnesses.

(* ===================================================================== *)
(** * Further properties of the code *)

Module TrackerFacts.

Lemma run_snoc (st : State) (evs : list Event) (e : Event) :
  run st (evs ++ [e]) = step (run st evs) e.
Proof. unfold run. rewrite fold_left_app. reflexivity. Qed.

Lemma count_handovers_app (l1 l2 : list Row) :
  count_handovers (l1 ++ l2) = (count_handovers l1 + count_handovers l2)%nat.
Proof. unfold count_handovers. rewrite List.filter_app, List.length_app. reflexivity. Qed.

(** The two shapes of an association step. *)
Lemma AssociationCallback_shape (st : State) (t : Time) (n : NodeId) (a : Mac48Address) :
  (exists prev, currentAp st !! n = Some prev /\ prev <> a /\
     handoverFile (AssociationCallback st t n a)
     = handoverFile st ++ [RowHandover t n prev a; RowAssoc t n a] /\
     handoverCount (AssociationCallback st t n a) = wrap32 (handoverCount st + 1)%Z) \/
  (currentAp st !! n = None \/ currentAp st !! n = Some a) /\
  handoverFile (AssociationCallback st t n a) = handoverFile st ++ [RowAssoc t n a] /\
  handoverCount (AssociationCallback st t n a) = handoverCount st.
Proof.
  unfold AssociationCallback.
  destruct (currentAp st !! n) as [prev|] eqn:E; [destruct (mac_eq_dec prev a) as [->|Hne]|].
  - right. auto.
  - left. exists prev. cbn. rewrite <- app_assoc. auto.
  - right. auto.
Qed.

(** X1: after any sequence of association and disassociation events
    handled from the initial state, [handoverCount] is the number of
    HANDOVER lines of [handover_events.csv], modulo 2^32. *)
Theorem handoverCount_counts_rows (evs : list Event) :
  handoverCount (run initState evs)
  = wrap32 (Z.of_nat (count_handovers (handoverFile (run initState evs)))).
Proof.
  induction evs as [|e evs IH] using rev_ind; [reflexivity|].
  rewrite run_snoc. destruct e as [t n a|t n a]; cbn [step].
  - destruct (AssociationCallback_shape (run initState evs) t n a)
      as [(prev & _ & _ & -> & ->)|(_ & -> & ->)];
      rewrite count_handovers_app, IH; [|cbn; rewrite Nat.add_0_r; reflexivity].
    cbn [count_handovers List.filter is_handover_row List.length].
    unfold wrap32. rewrite Zplus_mod_idemp_l. f_equal. lia.
  - cbn [DisassociationCallback handoverFile handoverCount].
    rewrite count_handovers_app, IH. cbn. rewrite Nat.add_0_r. reflexivity.
Qed.

(** X2: the log has one ASSOC or DEASSOC line per event, plus one
    HANDOVER line per handover. *)
Theorem handoverFile_length (evs : list Event) :
  List.length (handoverFile (run initState evs))
  = (List.length evs + count_handovers (handoverFile (run initState evs)))%nat.
Proof.
  induction evs as [|e evs IH] using rev_ind; [reflexivity|].
  rewrite run_snoc, List.length_app. destruct e as [t n a|t n a]; cbn [step].
  - destruct (AssociationCallback_shape (run initState evs) t n a)
      as [(prev & _ & _ & -> & _)|(_ & -> & _)];
      rewrite List.length_app, count_handovers_app; cbn; lia.
  - cbn [DisassociationCallback handoverFile].
    rewrite List.length_app, count_handovers_app. cbn. lia.
Qed.

(** X3: after any sequence of events, [currentAp] maps a station to the
    access point of its last association event, and has no entry for a
    station that never associated: disassociations neither remove nor
    change an entry. *)
Theorem currentAp_last_assoc (evs : list Event) (s : NodeId) :
  currentAp (run initState evs) !! s = last_assoc s evs.
Proof.
  induction evs as [|e evs IH] using rev_ind; [reflexivity|].
  rewrite run_snoc. unfold last_assoc.
  rewrite List.filter_app, List.rev_app_distr.
  destruct e as [t n a|t n a]; cbn [step].
  - rewrite AssociationCallback_currentAp. cbn [List.filter is_assoc_of].
    destruct (decide (n = s)) as [->|Hne].
    + rewrite bool_decide_true by reflexivity. cbn. apply lookup_insert_eq.
    + rewrite bool_decide_false by exact Hne. cbn.
      rewrite lookup_insert_ne by exact Hne. exact IH.
  - cbn [DisassociationCallback currentAp List.filter is_assoc_of]. exact IH.
Qed.

Lemma last_assoc_row_app (s : NodeId) (L R : list Row) :
  last_assoc_row s (L ++ R) = fold_left (assoc_row_update s) R (last_assoc_row s L).
Proof. unfold last_assoc_row. apply fold_left_app. Qed.

Lemma handover_lines_ok_app (L R : list Row) :
  handover_lines_ok L ->
  (forall k t n a b, R !! k = Some (RowHandover t n a b) ->
     a <> b /\ R !! S k = Some (RowAssoc t n b) /\
     last_assoc_row n (L ++ take k R) = Some a) ->
  handover_lines_ok (L ++ R).
Proof.
  intros HL HR k t n a b Hk.
  destruct (decide (k < List.length L)) as [Hlt|Hge].
  - rewrite lookup_app_l in Hk by exact Hlt.
    destruct (HL _ _ _ _ _ Hk) as (Hab & HS & Ht).
    pose proof (lookup_lt_Some _ _ _ HS) as HSlt.
    split; [exact Hab|split].
    + rewrite lookup_app_l by exact HSlt. exact HS.
    + rewrite take_app_le by lia. exact Ht.
  - rewrite lookup_app_r in Hk by lia.
    destruct (HR _ _ _ _ _ Hk) as (Hab & HS & Ht).
    split; [exact Hab|split].
    + rewrite lookup_app_r by lia.
      replace (S k - List.length L) with (S (k - List.length L)) by lia. exact HS.
    + rewrite take_app, take_ge by lia. exact Ht.
Qed.

Lemma no_handover_line (k : nat) (r : Row) (t : Time) (n : NodeId) (a b : Mac48Address) :
  is_handover_row r = false -> [r] !! k <> Some (RowHandover t n a b).
Proof. intros Hr. destruct k as [|[|k]]; cbn; [|discriminate..]. intros [= ->]. discriminate. Qed.

Lemma log_invariant (evs : list Event) :
  (forall s, currentAp (run initState evs) !! s = last_assoc_row s (handoverFile (run initState evs))) /\
  handover_lines_ok (handoverFile (run initState evs)).
Proof.
  induction evs as [|e evs [IHm IHh]] using rev_ind.
  - split; [reflexivity|]. intros k t n a b Hk. destruct k; discriminate.
  - rewrite run_snoc. set (st := run initState evs) in *.
    destruct e as [t n a|t n a]; cbn [step].
    + destruct (AssociationCallback_shape st t n a)
        as [(prev & Hprev & Hne & HF & _)|(_ & HF & _)]; rewrite HF; split.
      * intros s. rewrite AssociationCallback_currentAp, last_assoc_row_app, <- IHm.
        cbn. destruct (decide (n = s)) as [->|Hns].
        -- rewrite bool_decide_true by reflexivity. apply lookup_insert_eq.
        -- rewrite bool_decide_false by exact Hns. apply lookup_insert_ne. exact Hns.
      * apply handover_lines_ok_app; [exact IHh|].
        intros k t' n' a' b' Hk. destruct k as [|[|k]]; cbn in Hk; try discriminate.
        injection Hk as <- <- <- <-. split; [exact Hne|split; [reflexivity|]].
        rewrite List.app_nil_r, <- IHm. exact Hprev.
      * intros s. rewrite AssociationCallback_currentAp, last_assoc_row_app, <- IHm.
        cbn. destruct (decide (n = s)) as [->|Hns].
        -- rewrite bool_decide_true by reflexivity. apply lookup_insert_eq.
        -- rewrite bool_decide_false by exact Hns. apply lookup_insert_ne. exact Hns.
      * apply handover_lines_ok_app; [exact IHh|].
        intros k t' n' a' b' Hk. exfalso. revert Hk; apply no_handover_line; reflexivity.
    + cbn [DisassociationCallback currentAp handoverFile]. split.
      * intros s. rewrite last_assoc_row_app, <- IHm. reflexivity.
      * apply handover_lines_ok_app; [exact IHh|].
        intros k t' n' a' b' Hk. exfalso. revert Hk; apply no_handover_line; reflexivity.
Qed.

(** X4: after any sequence of events, the access point that [currentAp]
    records for a station is the one of the station's last ASSOC line in
    [handover_events.csv], and there is no entry when the log has no
    ASSOC line for it. *)
Theorem currentAp_last_assoc_row (evs : list Event) (s : NodeId) :
  currentAp (run initState evs) !! s = last_assoc_row s (handoverFile (run initState evs)).
Proof. exact (proj1 (log_invariant evs) s). Qed.

(** X5: in the log written by any sequence of events, every HANDOVER line
    (time [t], station [n], from [a], to [b]) has [a <> b], is directly
    followed by the ASSOC line of [t], [n] and [b], and its [a] is the
    access point of the last ASSOC line of [n] above it. *)
Theorem handover_lines_consistent (evs : list Event) (k : nat) (t : Time) (n : NodeId)
    (a b : Mac48Address) :
  handoverFile (run initState evs) !! k = Some (RowHandover t n a b) ->
  a <> b /\ handoverFile (run initState evs) !! S k = Some (RowAssoc t n b) /\
  last_assoc_row n (take k (handoverFile (run initState evs))) = Some a.
Proof. exact (proj2 (log_invariant evs) k t n a b). Qed.

End TrackerFacts.

Module ContextParseFacts.
Import Csv CsvReader CsvFacts ContextParse.
Local Open Scope string_scope.

Lemma str_length_app (a b : string) :
  String.length (a ++ b) = (String.length a + String.length b)%nat.
Proof. induction a as [|x a IH]; [reflexivity|]. exact (f_equal S IH). Qed.

Lemma substring_app_l (p q : string) (m : nat) :
  substring (String.length p) m (p ++ q) = substring 0 m q.
Proof. induction p as [|x p IH]; [reflexivity|]. exact IH. Qed.

Lemma substring_prefix (d r : string) : substring 0 (String.length d) (d ++ r) = d.
Proof. induction d as [|x d IH]; [destruct r; reflexivity|]. exact (f_equal (String x) IH). Qed.

Lemma prefix_app (s r : string) : prefix s (s ++ r) = true.
Proof.
  induction s as [|x s IH]; [destruct r; reflexivity|].
  change (String x s ++ r) with (String x (s ++ r)). simpl.
  destruct (ascii_dec x x) as [_|Hne]; [exact IH|contradiction].
Qed.

Lemma index0_prefix (s1 s2 : string) : prefix s1 s2 = true -> index 0 s1 s2 = Some 0%nat.
Proof.
  destruct s2 as [|b s2]; simpl; [destruct s1; [reflexivity|discriminate]|].
  intros ->. reflexivity.
Qed.

Lemma index_cons_false (s1 : string) (b : ascii) (s : string) :
  prefix s1 (String b s) = false ->
  index 0 s1 (String b s) = option_map S (index 0 s1 s).
Proof.
  intros H.
  change (index 0 s1 (String b s)) with
    (if prefix s1 (String b s) then Some 0%nat
     else match index 0 s1 s with Some n => Some (S n) | None => None end).
  rewrite H. destruct (index 0 s1 s); reflexivity.
Qed.

(** Positions of a text without ['/'] are skipped by a search for a word
    starting with ['/']. *)
Lemma index_skip (w p q : string) :
  all_chars (not_char "/") p = true ->
  index 0 (String "/" w) (p ++ q) = option_map (Nat.add (String.length p)) (index 0 (String "/" w) q).
Proof.
  induction p as [|c p IH]; intros Hp.
  - change ("" ++ q) with q. destruct (index 0 (String "/" w) q); reflexivity.
  - simpl in Hp. apply andb_true_iff in Hp as [Hc Hp].
    change (String c p ++ q) with (String c (p ++ q)).
    rewrite index_cons_false.
    + rewrite IH by exact Hp. destruct (index 0 (String "/" w) q); reflexivity.
    + cbn [prefix]. destruct (ascii_dec "/" c) as [<-|]; [discriminate|reflexivity].
Qed.

Lemma uint_isdigit (u : uint) : all_chars isdigit' (NilEmpty.string_of_uint u) = true.
Proof. induction u; simpl; auto. Qed.


Lemma isdigit_not_slash (s : string) :
  all_chars isdigit' s = true -> all_chars (not_char "/") s = true.
Proof.
  apply all_chars_impl. intros a Ha. unfold not_char.
  destruct (Ascii.eqb_spec a "/") as [->|Hne]; [discriminate Ha|reflexivity].
Qed.

Ltac eval_char :=
  repeat match goal with
  | |- context [Z.of_nat (nat_of_ascii ?a)] =>
      let v := eval vm_compute in (Z.of_nat (nat_of_ascii a)) in
      change (Z.of_nat (nat_of_ascii a)) with v
  end.

Lemma accumulate_pos (d : uint) (p : positive) :
  accumulate (Zpos p) (NilEmpty.string_of_uint d) = Zpos (Pos.of_uint_acc d p).
Proof.
  revert p. induction d; intros p; [reflexivity|..];
    cbn [NilEmpty.string_of_uint accumulate Pos.of_uint_acc]; rewrite <- IHd;
    f_equal; vm_compute digit_value; eval_char; lia.
Qed.

Lemma accumulate_N (d : uint) :
  accumulate 0 (NilEmpty.string_of_uint d) = Z.of_N (N.of_uint d).
Proof.
  induction d; [reflexivity|..];
    cbn [NilEmpty.string_of_uint accumulate]; vm_compute digit_value;
    [exact IHd|..]; apply accumulate_pos.
Qed.

Lemma nb_digits_double (d : uint) :
  (Decimal.nb_digits (Little.double d) <= S (Decimal.nb_digits d))%nat /\
  (Decimal.nb_digits (Little.succ_double d) <= S (Decimal.nb_digits d))%nat.
Proof. induction d; simpl; lia. Qed.

Lemma nb_digits_little (p : positive) :
  (Decimal.nb_digits (Pos.to_little_uint p) <= Pos.size_nat p)%nat.
Proof.
  induction p as [p IH|p IH|]; cbn [Pos.to_little_uint Pos.size_nat].
  - destruct (nb_digits_double (Pos.to_little_uint p)) as [_ H]. lia.
  - destruct (nb_digits_double (Pos.to_little_uint p)) as [H _]. lia.
  - cbn. lia.
Qed.

Lemma uint_length (d : uint) :
  String.length (NilEmpty.string_of_uint d) = Decimal.nb_digits d.
Proof. induction d; simpl; auto. Qed.

Lemma N_pos_lt (p q : positive) : (N.pos p < N.pos q)%N -> (p < q)%positive.
Proof. intros H. exact H. Qed.

Lemma show_u32_length (n : N) : (n < 2 ^ 32)%N -> (String.length (show_u32 n) <= 33)%nat.
Proof.
  intros Hn. unfold show_u32. rewrite uint_length. destruct n as [|p]; [cbn; lia|].
  cbn [N.to_uint]. unfold Pos.to_uint. rewrite DecimalFacts.nb_digits_rev.
  pose proof (N_pos_lt p 4294967296 Hn) as Hp.
  pose proof (Pos.size_nat_monotone _ _ Hp) as Hs.
  assert (H33 : Pos.size_nat 4294967296 = 33%nat) by reflexivity.
  pose proof (nb_digits_little p). clear Hn Hp. lia.
Qed.

Lemma show_u32_cons (n : N) : exists c w, show_u32 n = String c w.
Proof.
  unfold show_u32. destruct (N.to_uint n) eqn:E; [|eauto..].
  pose proof (f_equal N.of_uint E) as E'. rewrite DecimalN.Unsigned.of_to in E'.
  subst n. vm_compute in E. discriminate E.
Qed.

Lemma digit_facts (c : ascii) :
  isdigit' c = true ->
  isspace c = false /\ Ascii.eqb c "-" = false /\ Ascii.eqb c "+" = false /\
  exists d, digit_value c = Some d.
Proof.
  intros Hc. unfold isdigit' in Hc.
  destruct (digit_value c) as [d|] eqn:Hd; [|discriminate Hc].
  split; [|split; [|split; [|eauto]]]; unfold digit_value in Hd;
  destruct (Z.leb 48 (Z.of_nat (nat_of_ascii c)) && Z.leb (Z.of_nat (nat_of_ascii c)) 57)%Z eqn:E;
    try discriminate Hd;
  apply andb_true_iff in E as [E1 E2]; apply Z.leb_le in E1, E2.
  - unfold isspace. apply orb_false_iff. split; [apply Nat.eqb_neq; lia|].
    apply andb_false_iff. right. apply Nat.leb_gt. lia.
  - apply Ascii.eqb_neq. intros ->. change (nat_of_ascii "-") with 45%nat in E1. lia.
  - apply Ascii.eqb_neq. intros ->. change (nat_of_ascii "+") with 43%nat in E1. lia.
Qed.

Lemma stoi_digits (c : ascii) (w : string) :
  isdigit' c = true ->
  stoi (String c w)
  = let v := accumulate 0 (String c w) in
    if (Z.leb (- 2 ^ 31) v && Z.leb v (2 ^ 31 - 1))%Z then Ok v else Throw out_of_range.
Proof.
  intros Hc. destruct (digit_facts c Hc) as (Hs & Hm & Hp & d & Hd).
  unfold stoi. cbn [skip_spaces]. rewrite Hs, Hm, Hp.
  cbv beta iota. rewrite Hd. reflexivity.
Qed.

(** X6: a context ["/NodeList/" ++ n ++ "/Device" ++ rest], with the
    node id [n < 2^32] printed in decimal, is parsed back to [n] when
    [n < 2^31]; for [2^31 <= n] [std::stoi] throws [std::out_of_range]. *)
Theorem nodeId_of_context_roundtrip (n : N) (rest : string) :
  (n < 2 ^ 32)%N ->
  nodeId_of_context ("/NodeList/" ++ show_u32 n ++ "/Device" ++ rest)
  = if N.ltb n (2 ^ 31) then Ok n else Throw out_of_range.
Proof.
  intros Hn.
  pose proof (uint_isdigit (N.to_uint n)) as Hdig. fold (show_u32 n) in Hdig.
  pose proof (show_u32_length n Hn) as Hlen.
  destruct (show_u32_cons n) as (c & w & HD).
  assert (Hc : isdigit' c = true).
  { rewrite HD in Hdig. simpl in Hdig. apply andb_true_iff in Hdig. apply Hdig. }
  set (D := show_u32 n) in *.
  set (ctx := "/NodeList/" ++ D ++ "/Device" ++ rest).
  assert (Hsize : String.length ctx = (17 + String.length D + String.length rest)%nat).
  { unfold ctx. rewrite !str_length_app.
    change (String.length "/NodeList/") with 10%nat.
    change (String.length "/Device") with 7%nat. lia. }
  assert (Hs : find ctx "/NodeList/" 0 = 0%Z).
  { unfold find. rewrite (proj2 (Z.ltb_ge _ _)) by lia. change (Z.to_nat 0) with 0%nat.
    rewrite index0_prefix by apply prefix_app. reflexivity. }
  assert (He : find ctx "/Device" 0 = Z.of_nat (10 + String.length D)).
  { unfold find. rewrite (proj2 (Z.ltb_ge _ _)) by lia. change (Z.to_nat 0) with 0%nat.
    unfold ctx.
    change ("/NodeList/" ++ D ++ "/Device" ++ rest)
      with (String "/" ("NodeList" ++ String "/" (D ++ "/Device" ++ rest))).
    rewrite index_cons_false by reflexivity.
    rewrite index_skip by reflexivity.
    rewrite index_cons_false.
    2: { rewrite HD.
         change (String c w ++ "/Device" ++ rest) with (String c (w ++ "/Device" ++ rest)).
         cbn [prefix].
         destruct (ascii_dec "/" "/") as [_|C]; [|congruence].
         cbn [prefix].
         destruct (ascii_dec "D" c) as [<-|]; [discriminate Hc|]. reflexivity. }
    rewrite index_skip by (apply isdigit_not_slash; exact Hdig).
    rewrite index0_prefix by apply prefix_app.
    cbn. f_equal. lia. }
  unfold nodeId_of_context. rewrite Hs, He.
  change (wrap64 (0 + 10)) with 10%Z.
  replace (wrap64 (Z.of_nat (10 + String.length D) - 10)) with (Z.of_nat (String.length D))
    by (unfold wrap64; rewrite Z.mod_small; lia).
  unfold substr. rewrite Hsize.
  rewrite (proj2 (Z.ltb_ge _ _)) by lia.
  rewrite Z.min_l by lia. rewrite Nat2Z.id.
  change (Z.to_nat 10) with (String.length "/NodeList/"). unfold ctx.
  rewrite substring_app_l, substring_prefix.
  unfold nodeId_of_str. rewrite HD, stoi_digits by exact Hc. rewrite <- HD.
  unfold D, show_u32. rewrite accumulate_N, DecimalN.Unsigned.of_to.
  destruct (N.ltb_spec n (2 ^ 31)) as [Hlt|Hge].
  - rewrite (proj2 (andb_true_iff _ _)) by (split; apply Z.leb_le; lia).
    unfold wrap32. rewrite Z.mod_small by lia. rewrite N2Z.id. reflexivity.
  - rewrite (proj2 (andb_false_iff _ _)) by (right; apply Z.leb_gt; lia). reflexivity.
Qed.

Lemma stoi_not_a_number (c : ascii) (rest : string) :
  digit_value c = None -> isspace c = false -> c <> "-"%char -> c <> "+"%char ->
  stoi (String c rest) = Throw invalid_argument.
Proof.
  intros Hd Hsp Hm Hp. unfold stoi. cbn [skip_spaces]. rewrite Hsp.
  rewrite (proj2 (Ascii.eqb_neq c "-") Hm), (proj2 (Ascii.eqb_neq c "+") Hp).
  cbv beta iota. rewrite Hd. reflexivity.
Qed.

(** X8: when the character after ["/NodeList/"] is neither a digit, nor
    white space, nor a sign, [std::stoi] throws [std::invalid_argument],
    whatever follows. *)
Theorem nodeId_of_context_not_a_number (c : ascii) (rest : string) :
  digit_value c = None -> isspace c = false -> c <> "-"%char -> c <> "+"%char ->
  nodeId_of_context ("/NodeList/" ++ String c rest) = Throw invalid_argument.
Proof.
  intros Hd Hsp Hm Hp.
  set (ctx := "/NodeList/" ++ String c rest).
  assert (Hsize : String.length ctx = (11 + String.length rest)%nat).
  { unfold ctx. rewrite str_length_app. reflexivity. }
  assert (Hs : find ctx "/NodeList/" 0 = 0%Z).
  { unfold find. rewrite (proj2 (Z.ltb_ge _ _)) by lia. change (Z.to_nat 0) with 0%nat.
    rewrite index0_prefix by apply prefix_app. reflexivity. }
  unfold nodeId_of_context. rewrite Hs. change (wrap64 (0 + 10)) with 10%Z.
  unfold substr. rewrite Hsize, (proj2 (Z.ltb_ge _ _)) by lia.
  change (Z.to_nat 10) with (String.length "/NodeList/"). unfold ctx.
  rewrite substring_app_l.
  destruct (Z.to_nat _) as [|m].
  - reflexivity.
  - change (substring 0 (S m) (String c rest)) with (String c (substring 0 m rest)).
    unfold nodeId_of_str. rewrite stoi_not_a_number by assumption. reflexivity.
Qed.

(** X9: when the context does not contain ["/NodeList/"], [find] returns
    [npos], [start + 10] wraps around to 9 and the text from offset 9 to
    the end is parsed; [substr] throws [std::out_of_range] when the
    context is shorter than 9 characters. *)
Theorem nodeId_of_context_no_NodeList (ctx : string) :
  index 0 "/NodeList/" ctx = None ->
  (Z.of_nat (String.length ctx) < npos)%Z ->
  nodeId_of_context ctx
  = if Nat.ltb (String.length ctx) 9 then Throw out_of_range
    else nodeId_of_str (substring 9 (String.length ctx - 9) ctx).
Proof.
  intros Hi Hlt. unfold npos in Hlt.
  change (2 ^ 64 - 1)%Z with 18446744073709551615%Z in Hlt.
  assert (Hs : find ctx "/NodeList/" 0 = npos).
  { unfold find. rewrite (proj2 (Z.ltb_ge _ _)) by lia. change (Z.to_nat 0) with 0%nat.
    rewrite Hi. reflexivity. }
  assert (He : find ctx "/Device" npos = npos).
  { unfold find, npos. change (2 ^ 64 - 1)%Z with 18446744073709551615%Z.
    rewrite (proj2 (Z.ltb_lt _ _)) by lia. reflexivity. }
  unfold nodeId_of_context. rewrite Hs, He.
  assert (H9 : wrap64 (npos + 10) = 9%Z) by reflexivity.
  assert (Hc : wrap64 (npos - 9) = 18446744073709551606%Z) by reflexivity.
  rewrite H9, Hc. unfold substr.
  destruct (Nat.ltb_spec (String.length ctx) 9) as [Hsm|Hge].
  - rewrite (proj2 (Z.ltb_lt _ _)) by lia. reflexivity.
  - rewrite (proj2 (Z.ltb_ge _ _)) by lia.
    rewrite Z.min_r by lia.
    replace (Z.to_nat (Z.of_nat (String.length ctx) - 9)) with (String.length ctx - 9)%nat
      by lia.
    reflexivity.
Qed.

Lemma stoi_neg_digits (c : ascii) (w : string) :
  isdigit' c = true ->
  stoi (String "-" (String c w))
  = let v := (- accumulate 0 (String c w))%Z in
    if (Z.leb (- 2 ^ 31) v && Z.leb v (2 ^ 31 - 1))%Z then Ok v else Throw out_of_range.
Proof.
  intros Hc. destruct (digit_facts c Hc) as (_ & _ & _ & d & Hd).
  unfold stoi. cbn [skip_spaces].
  change (isspace "-") with false. cbv beta iota.
  rewrite Ascii.eqb_refl. cbv beta iota. rewrite Hd. reflexivity.
Qed.

(** X7: a context ["/NodeList/-" ++ n ++ "/Device" ++ rest] with
    [n <= 2^31] is accepted by [std::stoi] and converted to [uint32_t]
    modulo 2^32, which gives [(2^32 - n) mod 2^32]; for [2^31 < n]
    [std::out_of_range] is thrown. *)
Theorem nodeId_of_context_negative (n : N) (rest : string) :
  (n < 2 ^ 32)%N ->
  nodeId_of_context ("/NodeList/-" ++ show_u32 n ++ "/Device" ++ rest)
  = if N.leb n (2 ^ 31) then Ok ((2 ^ 32 - n) mod 2 ^ 32)%N else Throw out_of_range.
Proof.
  intros Hn.
  pose proof (uint_isdigit (N.to_uint n)) as Hdig. fold (show_u32 n) in Hdig.
  pose proof (show_u32_length n Hn) as Hlen.
  destruct (show_u32_cons n) as (c & w & HD).
  assert (Hc : isdigit' c = true).
  { rewrite HD in Hdig. simpl in Hdig. apply andb_true_iff in Hdig. apply Hdig. }
  set (D := show_u32 n) in *.
  change ("/NodeList/-" ++ D ++ "/Device" ++ rest)
    with ("/NodeList/" ++ String "-" (D ++ "/Device" ++ rest)).
  set (ctx := "/NodeList/" ++ String "-" (D ++ "/Device" ++ rest)).
  assert (Hsize : String.length ctx = (18 + String.length D + String.length rest)%nat).
  { unfold ctx. rewrite str_length_app. cbn [String.length].
    rewrite !str_length_app. cbn [String.length]. lia. }
  assert (Hs : find ctx "/NodeList/" 0 = 0%Z).
  { unfold find. rewrite (proj2 (Z.ltb_ge _ _)) by lia. change (Z.to_nat 0) with 0%nat.
    rewrite index0_prefix by apply prefix_app. reflexivity. }
  assert (He : find ctx "/Device" 0 = Z.of_nat (11 + String.length D)).
  { unfold find. rewrite (proj2 (Z.ltb_ge _ _)) by lia. change (Z.to_nat 0) with 0%nat.
    unfold ctx.
    change ("/NodeList/" ++ String "-" (D ++ "/Device" ++ rest))
      with (String "/" ("NodeList" ++ String "/" (String "-" (D ++ "/Device" ++ rest)))).
    rewrite index_cons_false by reflexivity.
    rewrite index_skip by reflexivity.
    rewrite index_cons_false by reflexivity.
    rewrite index_cons_false by reflexivity.
    rewrite index_skip by (apply isdigit_not_slash; exact Hdig).
    rewrite index0_prefix by apply prefix_app.
    cbn. f_equal. lia. }
  unfold nodeId_of_context. rewrite Hs, He.
  change (wrap64 (0 + 10)) with 10%Z.
  replace (wrap64 (Z.of_nat (11 + String.length D) - 10)) with (Z.of_nat (S (String.length D)))
    by (unfold wrap64; rewrite Z.mod_small; lia).
  unfold substr. rewrite Hsize.
  rewrite (proj2 (Z.ltb_ge _ _)) by lia.
  rewrite Z.min_l by lia. rewrite Nat2Z.id.
  change (Z.to_nat 10) with (String.length "/NodeList/"). unfold ctx.
  rewrite substring_app_l.
  change (substring 0 (S (String.length D)) (String "-" (D ++ "/Device" ++ rest)))
    with (String "-" (substring 0 (String.length D) (D ++ "/Device" ++ rest))).
  rewrite substring_prefix.
  unfold nodeId_of_str. rewrite HD, stoi_neg_digits by exact Hc. rewrite <- HD.
  unfold D, show_u32. rewrite accumulate_N, DecimalN.Unsigned.of_to.
  change (2 ^ 32)%N with 4294967296%N in *. change (2 ^ 31)%N with 2147483648%N.
  destruct (N.leb_spec n 2147483648) as [Hle|Hgt].
  - rewrite (proj2 (andb_true_iff _ _)) by (split; apply Z.leb_le; lia).
    unfold wrap32. change (2 ^ 32)%Z with 4294967296%Z.
    destruct (N.eq_dec n 0%N) as [->|Hnz]; [reflexivity|].
    rewrite N.mod_small by lia.
    rewrite <- (Z.mod_unique (- Z.of_N n) 4294967296 (-1) (4294967296 - Z.of_N n)) by lia.
    f_equal. lia.
  - rewrite (proj2 (andb_false_iff _ _)) by (left; apply Z.leb_gt; lia). reflexivity.
Qed.

End ContextParseFacts.

Module RssiFacts.
Import Propagation PropagationFacts.
Local Open Scope R_scope.


Lemma CalculateDistance_sym (a b : Vector) : CalculateDistance a b = CalculateDistance b a.
Proof. unfold CalculateDistance. f_equal. ring. Qed.

(** X11: [CalculateRssi] gives the same value when the two positions are
    swapped. *)
Theorem CalculateRssi_sym (a b : Vector) : CalculateRssi a b = CalculateRssi b a.
Proof. unfold CalculateRssi. rewrite CalculateDistance_sym. reflexivity. Qed.

(** X12: the [CalculateRssi] of roaming-saturation.cc, whose distance
    uses [std::pow], returns the value of the one of wifi-roaming-v4.cc
    on every pair of positions. *)
Theorem CalculateRssiSat_agrees (tx rx : Vector) : CalculateRssiSat tx rx = CalculateRssi tx rx.
Proof. unfold CalculateRssiSat, CalculateRssi. rewrite distance_pow_agrees. reflexivity. Qed.

End RssiFacts.

Module RssiMonitorFacts.
Import Propagation Csv CsvReader CsvFacts RssiMonitor.

Lemma map_flat_map' {A B C} (f : B -> C) (g : A -> list B) (l : list A) :
  map f (flat_map g l) = flat_map (fun x => map f (g x)) l.
Proof. induction l as [|x l IH]; [reflexivity|]. simpl. rewrite map_app, IH. reflexivity. Qed.

Lemma callback_keys nSta nAp sp ap now :
  map (fun r => (rssi_time r, rssi_sta r, rssi_ap r)) (RssiMonitorCallback nSta nAp sp ap now)
  = flat_map (fun i => map (fun j => (now, N.of_nat i, N.of_nat j)) (seq 0 nAp)) (seq 0 nSta).
Proof.
  unfold RssiMonitorCallback. rewrite map_flat_map'. apply flat_map_ext. intros i.
  rewrite map_map. reflexivity.
Qed.

Lemma trace_keys_from nSta nAp sp ap k s :
  map (fun r => (rssi_time r, rssi_sta r, rssi_ap r)) (rssi_trace nSta nAp sp ap k (Z.of_nat s * rssiPeriod)%Z)
  = flat_map (fun m => flat_map (fun i => map (fun j => ((Z.of_nat m * rssiPeriod)%Z, N.of_nat i, N.of_nat j))
                                      (seq 0 nAp)) (seq 0 nSta)) (seq s k).
Proof.
  revert s. induction k as [|k IH]; intros s; [reflexivity|].
  cbn [rssi_trace seq flat_map]. rewrite map_app, callback_keys.
  replace (Z.of_nat s * rssiPeriod + rssiPeriod)%Z with (Z.of_nat (S s) * rssiPeriod)%Z by lia.
  rewrite IH. reflexivity.
Qed.

(** X13: [k] runs of [RssiMonitorCallback], the first at 0 s and each
    next one 100 ms later, write, for [m] from 0 to [k - 1], for each
    station [i < nSta], for each AP [j < nAp], in this order, one row
    with time [m * 100 ms], station [i] and AP [j]. *)
Theorem rssi_trace_keys nSta nAp sp ap k :
  map (fun r => (rssi_time r, rssi_sta r, rssi_ap r)) (rssi_trace nSta nAp sp ap k 0%Z)
  = flat_map (fun m => flat_map (fun i => map (fun j => ((Z.of_nat m * rssiPeriod)%Z, N.of_nat i, N.of_nat j))
                                      (seq 0 nAp)) (seq 0 nSta)) (seq 0 k).
Proof. exact (trace_keys_from nSta nAp sp ap k 0). Qed.

(** X14: every row written by the RSSI monitor has a station index below
    [nSta] and an AP index below [nAp]; its [PosX] and [PosY] are those
    of that station at the row's time, and its RSSI is [CalculateRssi]
    of that AP's position and that station's position at that time. *)
Theorem rssi_trace_values nSta nAp sp ap k now r :
  In r (rssi_trace nSta nAp sp ap k now) ->
  let i := N.to_nat (rssi_sta r) in
  let j := N.to_nat (rssi_ap r) in
  let t := rssi_time r in
  (i < nSta)%nat /\ (j < nAp)%nat /\
  posX r = vx (sp t i) /\ posY r = vy (sp t i) /\
  rssi_value r = CalculateRssi (ap t j) (sp t i).
Proof.
  revert now. induction k as [|k IH]; intros now Hin; [destruct Hin|].
  cbn [rssi_trace] in Hin. apply in_app_or in Hin as [Hin|Hin]; [|exact (IH _ Hin)].
  unfold RssiMonitorCallback in Hin.
  apply in_flat_map in Hin as (i & Hi & Hin). apply in_map_iff in Hin as (j & <- & Hj).
  apply in_seq in Hi, Hj. cbn. rewrite !Nat2N.id. repeat split; lia || reflexivity.
Qed.

(** X15: when the printed [double]s contain no comma, a line of
    [rssi_measurements.csv] splits on [','] into exactly its 6 fields:
    time, station, AP, x, y and RSSI. *)
Theorem split_rssi_line (show_double : R -> string) (r : RssiRow) :
  (forall x, all_chars (not_char ",") (show_double x) = true) ->
  split_on "," (rssi_line show_double r)
  = [show_time (rssi_time r); show_u32 (rssi_sta r); show_u32 (rssi_ap r);
     show_double (posX r); show_double (posY r); show_double (rssi_value r)].
Proof.
  intros Hd.
  assert (Ht : forall t, all_chars (not_char ",") (show_time t) = true)
    by (intros; apply field_char_not; [tauto|apply show_time_chars]).
  assert (Hn : forall n, all_chars (not_char ",") (show_u32 n) = true)
    by (intros; apply field_char_not; [tauto|apply show_u32_chars]).
  unfold rssi_line. rewrite ?app_sep.
  rewrite split_on_app by apply Ht.
  rewrite split_on_app by apply Hn. rewrite split_on_app by apply Hn.
  rewrite split_on_app by apply Hd. rewrite split_on_app by apply Hd.
  rewrite split_on_none by apply Hd. reflexivity.
Qed.

End RssiMonitorFacts.

Module FlowCsvFacts.
Import FlowAgg Csv CsvReader CsvFacts FlowCsv.
Local Open Scope string_scope.

Lemma show_ipv4_chars (a : Z) : all_chars field_char (show_ipv4 a) = true.
Proof.
  unfold show_ipv4. rewrite ?app_sep.
  repeat (apply all_chars_app_true; [apply show_u32_chars|]; cbn [all_chars]; cbn [andb]).
  apply show_u32_chars.
Qed.

(** X16: when the printed throughput contains no comma, a line of
    [flow_stats.csv] splits on [','] into exactly its 13 fields, in the
    order of the header. *)
Theorem split_flow_line (show_double : R -> string) (fid : N) (src dst : Z) (fs : FlowStats) :
  (forall x, all_chars (not_char ",") (show_double x) = true) ->
  split_on "," (flow_line show_double fid src dst fs)
  = [show_u32 fid; show_ipv4 src; show_ipv4 dst;
     show_u32 (txPackets fs); show_u32 (rxPackets fs); show_u32 (lostPackets fs);
     show_time (delaySum fs); show_time (jitterSum fs); show_time (lastDelay fs);
     show_u32 (txBytes fs); show_u32 (rxBytes fs);
     show_time (timeLastRxPacket fs - timeFirstTxPacket fs)%Z;
     show_double (flow_throughput fs)].
Proof.
  intros Hd.
  assert (Ht : forall t, all_chars (not_char ",") (show_time t) = true)
    by (intros; apply field_char_not; [tauto|apply show_time_chars]).
  assert (Hn : forall n, all_chars (not_char ",") (show_u32 n) = true)
    by (intros; apply field_char_not; [tauto|apply show_u32_chars]).
  assert (Hi : forall a, all_chars (not_char ",") (show_ipv4 a) = true)
    by (intros; apply field_char_not; [tauto|apply show_ipv4_chars]).
  unfold flow_line. rewrite ?app_sep.
  repeat (rewrite split_on_app by first [apply Hn | apply Hi | apply Ht]).
  rewrite split_on_none by apply Hd. reflexivity.
Qed.

(** X17: the throughput written to [flow_stats.csv] is never negative,
    also for flows whose duration is zero or negative. *)
Theorem flow_throughput_nonneg (fs : FlowStats) : (0 <= flow_throughput fs)%R.
Proof.
  unfold flow_throughput. destruct (Rlt_dec 0 (flow_duration fs)) as [Hd|]; [|lra].
  apply Rmult_le_pos; [|lra]. unfold Rdiv. apply Rmult_le_pos; [|left; apply Rinv_0_lt_compat; exact Hd].
  apply Rmult_le_pos; [|lra]. apply IZR_le. lia.
Qed.

Local Open Scope Z_scope.

Lemma show_u32_no_dot (n : N) : all_chars (not_char ".") (show_u32 n) = true.
Proof.
  unfold show_u32. apply all_chars_impl with (p := ContextParse.isdigit'); [|apply ContextParseFacts.uint_isdigit].
  intros a Ha. unfold not_char.
  destruct (Ascii.eqb_spec a ".") as [->|Hne]; [discriminate Ha|reflexivity].
Qed.

Lemma split_show_ipv4 (a : Z) :
  split_on "." (show_ipv4 a)
  = [show_u32 (Z.to_N (Z.land (Z.shiftr a 24) 255)); show_u32 (Z.to_N (Z.land (Z.shiftr a 16) 255));
     show_u32 (Z.to_N (Z.land (Z.shiftr a 8) 255)); show_u32 (Z.to_N (Z.land a 255))].
Proof.
  unfold show_ipv4. rewrite ?app_sep.
  repeat (rewrite split_on_app by apply show_u32_no_dot).
  rewrite split_on_none by apply show_u32_no_dot. reflexivity.
Qed.

Lemma byte_bit (a s m : Z) :
  (0 <= s)%Z -> (0 <= m < 8)%Z -> Z.testbit (Z.land (Z.shiftr a s) 255) m = Z.testbit a (m + s).
Proof.
  intros Hs Hm. rewrite Z.land_spec, Z.shiftr_spec by lia.
  change 255 with (Z.ones 8). rewrite Z.ones_spec_low by lia. apply andb_true_r.
Qed.

Lemma show_u32_inj_byte (x y : Z) :
  show_u32 (Z.to_N (Z.land x 255)) = show_u32 (Z.to_N (Z.land y 255)) ->
  Z.land x 255 = Z.land y 255.
Proof.
  intros H. apply (f_equal parse_u32) in H. rewrite !parse_u32_show in H.
  injection H as H. apply Z2N.inj in H; [exact H| |]; apply Z.land_nonneg; right; lia.
Qed.

(** X18: two 32-bit addresses that print alike in the Source or
    Destination column are equal: [show_ipv4] is injective on
    [0 <= a < 2^32]. *)
Theorem show_ipv4_inj (a b : Z) :
  (0 <= a < 2 ^ 32)%Z -> (0 <= b < 2 ^ 32)%Z -> show_ipv4 a = show_ipv4 b -> a = b.
Proof.
  intros Ha Hb Heq.
  apply (f_equal (split_on ".")) in Heq. rewrite !split_show_ipv4 in Heq.
  pose proof (f_equal (fun l => nth 0 l "") Heq) as H3.
  pose proof (f_equal (fun l => nth 1 l "") Heq) as H2.
  pose proof (f_equal (fun l => nth 2 l "") Heq) as H1.
  pose proof (f_equal (fun l => nth 3 l "") Heq) as H0.
  cbv beta in H3, H2, H1, H0. cbn [nth] in H3, H2, H1, H0. clear Heq.
  apply show_u32_inj_byte in H3, H2, H1.
  rewrite <- (Z.shiftr_0_r a), <- (Z.shiftr_0_r b) in H0. apply show_u32_inj_byte in H0.
  apply Z.bits_inj'. intros n Hn.
  assert (Hk : forall s x, 0 <= s -> s <= n < s + 8 ->
                 Z.testbit x n = Z.testbit (Z.land (Z.shiftr x s) 255) (n - s)).
  { intros s x Hs Hsn. rewrite byte_bit by lia. f_equal. lia. }
  destruct (Z.lt_ge_cases n 8) as [L0|G0];
    [rewrite (Hk 0 a), (Hk 0 b), H0 by lia; reflexivity|].
  destruct (Z.lt_ge_cases n 16) as [L1|G1];
    [rewrite (Hk 8 a), (Hk 8 b), H1 by lia; reflexivity|].
  destruct (Z.lt_ge_cases n 24) as [L2|G2];
    [rewrite (Hk 16 a), (Hk 16 b), H2 by lia; reflexivity|].
  destruct (Z.lt_ge_cases n 32) as [L3|G3];
    [rewrite (Hk 24 a), (Hk 24 b), H3 by lia; reflexivity|].
  assert (Hhigh : forall x, 0 <= x < 2 ^ 32 -> Z.testbit x n = false).
  { intros x Hx. rewrite <- (Z.mod_small x (2 ^ 32)) by exact Hx.
    apply Z.mod_pow2_bits_high. lia. }
  rewrite (Hhigh a Ha), (Hhigh b Hb). reflexivity.
Qed.

End FlowCsvFacts.

(* ===================================================================== *)
(** * Instances of the further properties *)

Module ExtraWitnesses.
Import Propagation Csv CsvReader CsvFacts ContextParse RssiMonitor FlowAgg FlowCsv.
Local Open Scope string_scope.

(** The context of the station of node 3, as [Config::Connect] passes it. *)
Lemma nodeId_of_context_roundtrip_witness :
  (3 < 2 ^ 32)%N /\
  nodeId_of_context ("/NodeList/" ++ show_u32 3 ++ "/Device" ++ "List/0/$ns3::WifiNetDevice/Mac/$ns3::StaWifiMac/Assoc")
  = (if N.ltb 3 (2 ^ 31) then Ok 3%N else Throw out_of_range).
Proof.
  assert (H : (3 < 2 ^ 32)%N) by reflexivity.
  split; [exact H|].
  exact (ContextParseFacts.nodeId_of_context_roundtrip 3 "List/0/$ns3::WifiNetDevice/Mac/$ns3::StaWifiMac/Assoc" H).
Defined.

(** ["/NodeList/-1/Device..."] gives node 4294967295. *)
Lemma nodeId_of_context_negative_witness :
  (1 < 2 ^ 32)%N /\
  nodeId_of_context ("/NodeList/-" ++ show_u32 1 ++ "/Device" ++ "List/0")
  = (if N.leb 1 (2 ^ 31) then Ok ((2 ^ 32 - 1) mod 2 ^ 32)%N else Throw out_of_range).
Proof.
  assert (H : (1 < 2 ^ 32)%N) by reflexivity.
  split; [exact H|].
  exact (ContextParseFacts.nodeId_of_context_negative 1 "List/0" H).
Defined.

Lemma nodeId_of_context_not_a_number_witness :
  digit_value "x" = None /\ isspace "x" = false /\ "x"%char <> "-"%char /\ "x"%char <> "+"%char /\
  nodeId_of_context ("/NodeList/" ++ String "x" "/DeviceList/0") = Throw invalid_argument.
Proof.
  assert (H1 : digit_value "x" = None) by reflexivity.
  assert (H2 : isspace "x" = false) by reflexivity.
  assert (H3 : "x"%char <> "-"%char) by discriminate.
  assert (H4 : "x"%char <> "+"%char) by discriminate.
  split; [exact H1|split; [exact H2|split; [exact H3|split; [exact H4|]]]].
  exact (ContextParseFacts.nodeId_of_context_not_a_number "x" "/DeviceList/0" H1 H2 H3 H4).
Defined.

(** Without ["/NodeList/"], the digits from offset 9 are read. *)
Lemma nodeId_of_context_no_NodeList_witness :
  index 0 "/NodeList/" "abcdefghi42/Device" = None /\
  (Z.of_nat (String.length "abcdefghi42/Device") < npos)%Z /\
  nodeId_of_context "abcdefghi42/Device"
  = (if Nat.ltb (String.length "abcdefghi42/Device") 9 then Throw out_of_range
     else nodeId_of_str (substring 9 (String.length "abcdefghi42/Device" - 9) "abcdefghi42/Device")).
Proof.
  assert (H1 : index 0 "/NodeList/" "abcdefghi42/Device" = None) by reflexivity.
  assert (H2 : (Z.of_nat (String.length "abcdefghi42/Device") < npos)%Z) by (vm_compute; reflexivity).
  split; [exact H1|split; [exact H2|]].
  exact (ContextParseFacts.nodeId_of_context_no_NodeList "abcdefghi42/Device" H1 H2).
Defined.

(** One station at the origin and one AP at (10, 0, 0), one run at 0 s. *)
Lemma rssi_trace_values_witness :
  In (mkRssiRow 0%Z 0%N 0%N 0%R 0%R (CalculateRssi (Vec 10 0 0) (Vec 0 0 0)))
     (rssi_trace 1 1 (fun _ _ => Vec 0 0 0) (fun _ _ => Vec 10 0 0) 1 0%Z) /\
  (let r := mkRssiRow 0%Z 0%N 0%N 0%R 0%R (CalculateRssi (Vec 10 0 0) (Vec 0 0 0)) in
   let i := N.to_nat (rssi_sta r) in
   let j := N.to_nat (rssi_ap r) in
   let t := rssi_time r in
   (i < 1)%nat /\ (j < 1)%nat /\
   posX r = vx ((fun _ _ => Vec 0 0 0) t i) /\ posY r = vy ((fun _ _ => Vec 0 0 0) t i) /\
   rssi_value r = CalculateRssi ((fun _ _ => Vec 10 0 0) t j) ((fun _ _ => Vec 0 0 0) t i)).
Proof.
  assert (H : In (mkRssiRow 0%Z 0%N 0%N 0%R 0%R (CalculateRssi (Vec 10 0 0) (Vec 0 0 0)))
                 (rssi_trace 1 1 (fun _ _ => Vec 0 0 0) (fun _ _ => Vec 10 0 0) 1 0%Z))
    by (left; reflexivity).
  split; [exact H|].
  exact (RssiMonitorFacts.rssi_trace_values 1 1 (fun _ _ => Vec 0 0 0) (fun _ _ => Vec 10 0 0)
           1 0%Z _ H).
Defined.

(** A printer of [double]s that writes ["0"]. *)
Lemma split_rssi_line_witness :
  (forall x : R, all_chars (not_char ",") ((fun _ : R => "0") x) = true) /\
  split_on "," (rssi_line (fun _ => "0") (mkRssiRow 100000000%Z 0%N 1%N 0%R 0%R 0%R))
  = [show_time 100000000%Z; show_u32 0; show_u32 1; "0"; "0"; "0"].
Proof.
  assert (H : forall x : R, all_chars (not_char ",") ((fun _ : R => "0") x) = true)
    by (intros; reflexivity).
  split; [exact H|].
  exact (RssiMonitorFacts.split_rssi_line (fun _ => "0") (mkRssiRow 100000000%Z 0%N 1%N 0%R 0%R 0%R) H).
Defined.

Lemma split_flow_line_witness :
  (forall x : R, all_chars (not_char ",") ((fun _ : R => "0") x) = true) /\
  split_on "," (flow_line (fun _ => "0") 1%N 167837953%Z 167837954%Z
                  (mkFlowStats 0%Z 0%Z 0%Z 0%N 0%N 0%N 0%N 0%N 0%Z 0%Z))
  = [show_u32 1; show_ipv4 167837953%Z; show_ipv4 167837954%Z;
     show_u32 0; show_u32 0; show_u32 0;
     show_time 0%Z; show_time 0%Z; show_time 0%Z;
     show_u32 0; show_u32 0; show_time (0 - 0)%Z; "0"].
Proof.
  assert (H : forall x : R, all_chars (not_char ",") ((fun _ : R => "0") x) = true)
    by (intros; reflexivity).
  split; [exact H|].
  exact (FlowCsvFacts.split_flow_line (fun _ => "0") 1%N 167837953%Z 167837954%Z
           (mkFlowStats 0%Z 0%Z 0%Z 0%N 0%N 0%N 0%N 0%N 0%Z 0%Z) H).
Defined.

(** S0 associates with AA at 1 s, then with BB at 5 s: line 1 of the log
    is the HANDOVER line. *)
Lemma handover_lines_consistent_witness :
  (handoverFile (run initState [Assoc 1000000000%Z 0%N apAA; Assoc 5000000000%Z 0%N apBB]) !! 1%nat
   = Some (RowHandover 5000000000%Z 0%N apAA apBB)) /\
  (apAA <> apBB /\
   (handoverFile (run initState [Assoc 1000000000%Z 0%N apAA; Assoc 5000000000%Z 0%N apBB]) !! 2%nat
    = Some (RowAssoc 5000000000%Z 0%N apBB)) /\
   (last_assoc_row 0%N (take 1 (handoverFile (run initState
      [Assoc 1000000000%Z 0%N apAA; Assoc 5000000000%Z 0%N apBB]))) = Some apAA)).
Proof.
  assert (H : handoverFile (run initState [Assoc 1000000000%Z 0%N apAA; Assoc 5000000000%Z 0%N apBB]) !! 1%nat
              = Some (RowHandover 5000000000%Z 0%N apAA apBB)) by (vm_compute; reflexivity).
  split; [exact H|].
  exact (TrackerFacts.handover_lines_consistent _ 1 _ _ _ _ H).
Defined.

(** 10.1.1.1 printed twice. *)
Lemma show_ipv4_inj_witness :
  (0 <= 167837953 < 2 ^ 32)%Z /\ (0 <= 167837953 < 2 ^ 32)%Z /\
  show_ipv4 167837953%Z = show_ipv4 167837953%Z /\ 167837953%Z = 167837953%Z.
Proof.
  assert (H : (0 <= 167837953 < 2 ^ 32)%Z) by lia.
  split; [exact H|split; [exact H|split; [reflexivity|]]].
  exact (FlowCsvFacts.show_ipv4_inj 167837953 167837953 H H eq_refl).
Defined.

End ExtraWitnesses.
